(** * mcp-server-client: the database tool server and the agent chat loop

    A shallow embedding of [server/postgres_db.py] and
    [client/db_client.py].

    Both files are effectful Python: the server calls into SQLAlchemy
    (inspector, connections, cursors) and the client talks to a terminal
    and to an agent.  Those collaborators are not part of the repository,
    so they appear here as records of operations ([Engine], [Agent]) that
    take and return an explicit world; every such operation either
    returns a value or raises a Python exception.  The repository's own
    functions are written in a small state-and-exception monad on top of
    these records, statement by statement. *)

From Stdlib Require Import String Ascii List ZArith Bool Lia.
Import ListNotations.
Local Open Scope string_scope.
Local Open Scope list_scope.

(** ** Python runtime: exceptions, outcomes, the effect monad *)

Module Py.

(** The exception classes the two programs can meet, with the part of the
    class hierarchy their [except] clauses look at. *)
Inductive exn_class : Type :=
  (* BaseException, not Exception *)
  | KeyboardInterrupt
  | SystemExit
  | CancelledError
  (* Exception, not SQLAlchemyError *)
  | EOFError
  | ValidationError
  | RuntimeError
  (* sqlalchemy.exc.SQLAlchemyError *)
  | NoSuchTableError
  | ProgrammingError
  | IntegrityError
  | DataError
  | OperationalError.

(** An exception object: its class and [str(e)]. *)
Record exn : Type := Exn { exn_cls : exn_class; exn_str : string }.

Definition isinstance_SQLAlchemyError (e : exn) : bool :=
  match exn_cls e with
  | NoSuchTableError | ProgrammingError | IntegrityError
  | DataError | OperationalError => true
  | _ => false
  end.

Definition isinstance_Exception (e : exn) : bool :=
  match exn_cls e with
  | KeyboardInterrupt | SystemExit | CancelledError => false
  | _ => true
  end.

Definition isinstance_KeyboardInterrupt (e : exn) : bool :=
  match exn_cls e with
  | KeyboardInterrupt => true
  | _ => false
  end.

(** What a call does: return or raise. *)
Inductive outcome (A : Type) : Type :=
  | Ret (a : A)
  | Raise (e : exn).
Arguments Ret {A} a.
Arguments Raise {A} e.

(** Computations over a world [S].  The world survives a raise: what was
    done before the exception stays done. *)
Definition M (S A : Type) : Type := S -> outcome A * S.

Definition ret {S A} (a : A) : M S A := fun s => (Ret a, s).

Definition raise {S A} (e : exn) : M S A := fun s => (Raise e, s).

Definition bind {S A B} (m : M S A) (k : A -> M S B) : M S B :=
  fun s =>
    match m s with
    | (Ret a, s') => k a s'
    | (Raise e, s') => (Raise e, s')
    end.

(** [try: body  except ...: handler e].  The handler receives every
    exception and re-raises those its clauses do not match. *)
Definition try_except {S A} (body : M S A) (handler : exn -> M S A) : M S A :=
  fun s =>
    match body s with
    | (Ret a, s') => (Ret a, s')
    | (Raise e, s') => handler e s'
    end.

(** [try: body  finally: fin], also the exit half of a [with] block
    whose [__exit__] does not swallow exceptions: [fin] runs on every
    way out of [body], and an exception of [fin] replaces body's
    outcome. *)
Definition try_finally {S A} (body : M S A) (fin : M S unit) : M S A :=
  fun s =>
    match body s with
    | (o, s') =>
        match fin s' with
        | (Ret _, s'') => (o, s'')
        | (Raise e, s'') => (Raise e, s'')
        end
    end.

Definition modify {S} (f : S -> S) : M S unit := fun s => (Ret tt, f s).

Declare Scope py_scope.
Delimit Scope py_scope with py.
Notation "x <- c1 ;; c2" := (bind c1 (fun x => c2))
  (at level 61, c1 at next level, right associativity) : py_scope.
Notation "c1 ;; c2" := (bind c1 (fun _ => c2))
  (at level 61, right associativity) : py_scope.

(** The line feed of Python's ["\n"]. *)
Definition nl : string := String (ascii_of_nat 10) EmptyString.

(** [f"{x}"] for an [Optional[str]]: [None] prints as [None]. *)
Definition format_opt (x : option string) : string :=
  match x with
  | Some s => s
  | None => "None"
  end.

(** [x or d] for an [Optional[str]]: [None] and the empty string are
    falsy. *)
Definition or_default (x : option string) (d : string) : string :=
  match x with
  | Some EmptyString | None => d
  | Some s => s
  end.

End Py.

Import Py.
Local Open Scope py_scope.

(** ** server/postgres_db.py

    The five handlers registered on the MCP server.  Argument parsing
    and the creation of the engine happen once at import time and are
    not modelled; the engine they create is the [Engine] below. *)

Module Server.

(** A value in a result row ([Any] in the source). *)
Inductive sqlval : Type :=
  | VNull
  | VInt (n : Z)
  | VText (s : string)
  | VBool (b : bool).

(** [dict(r._mapping)]: column name to value, in column order. *)
Definition row : Type := list (string * sqlval).

(** One entry of [inspector.get_columns(...)]: the keys the source
    reads.  [ci_type] is the type object, kept by its [str()]. *)
Record column_info : Type := ColumnInfo {
  ci_name : string;
  ci_type : string;
  ci_nullable : bool;
  ci_default : option string
}.

(** SQLAlchemy as the source uses it.  [world] is everything the
    database and the pool hold; the handle types are those of
    [inspect(engine)], [engine.connect()] and [conn.execute(...)]. *)
Record Engine : Type := {
  world : Type;
  inspector : Type;
  conn : Type;
  cursor : Type;
  e_inspect : world -> outcome inspector * world;
  e_get_table_names : inspector -> world -> outcome (list string) * world;
  e_get_columns : inspector -> string -> world -> outcome (list column_info) * world;
  e_connect : world -> outcome conn * world;
  e_execute : conn -> string -> world -> outcome cursor * world;
  e_returns_rows : cursor -> bool;
  e_rowcount : cursor -> Z;
  e_fetch : cursor -> world -> outcome (list row) * world;
  e_commit : conn -> world -> outcome unit * world;
  e_close : conn -> world -> outcome unit * world
}.

(** The calls a handler issues, in the order it issues them. *)
Inductive db_event : Type :=
  | EvInspect
  | EvGetTableNames
  | EvGetColumns (table_name : string)
  | EvConnect
  | EvExecute (sql : string)
  | EvFetch
  | EvCommit
  | EvClose.

(** [logger.error(...)]: a formatted message, or the traceback of the
    exception being handled. *)
Inductive log_entry : Type :=
  | LogError (msg : string)
  | LogTraceback (e : exn).

(** [class SQLQueryResult(BaseModel)]. *)
Record SQLQueryResult : Type := mkSQLQueryResult {
  success : bool;
  sql : string;
  row_count : Z;
  rows : option (list row);
  error : option string
}.

(** The dict [sample_data_resource] returns; [sd_error] is the optional
    ["error"] key. *)
Record SampleDataView : Type := mkSampleDataView {
  sd_table : string;
  sd_columns : list string;
  sd_sample_rows : list row;
  sd_error : option string
}.

(** One element of ["columns"] in [describe_table]. *)
Record ColumnDescriptor : Type := mkColumnDescriptor {
  cd_name : string;
  cd_type : string;
  cd_nullable : bool;
  cd_default : option string
}.

Record TableDescriptor : Type := mkTableDescriptor {
  td_table : string;
  td_columns : list ColumnDescriptor
}.

Record TableList : Type := mkTableList { tableList : list string }.

(** The prompt's return value. *)
Record TextContent : Type := mkTextContent { c_type : string; c_text : string }.
Record Message : Type := mkMessage { role : string; content : TextContent }.
Record PromptResult : Type := mkPromptResult {
  description : string;
  messages : list Message
}.

(** The three fixed lines and the closing question of the prompt. *)
Definition recovery_script : string :=
  "Here are your options:" ++ nl ++
  "1. Call list_tables() to check available tables." ++ nl ++
  "2. Call describe_table(table_name) to inspect schema of the target table." ++ nl ++
  "3. Once you have correct schema/columns, craft a corrected SQL and call run_sql()." ++ nl ++
  "Which step will you take?".

(** The f-string of [handle_query_error]. *)
Definition guidance_text (error_message : string) (sql_query : option string)
  : string :=
  "You attempted to run this SQL query:" ++ nl ++ format_opt sql_query ++ nl ++ nl ++
  "It failed with the error:" ++ nl ++ error_message ++ nl ++ nl ++
  recovery_script.

Section Handlers.

Variable eng : Engine.

(** The server process: the database world, the calls issued so far and
    the log. *)
Record srv : Type := mkSrv {
  db : world eng;
  events : list db_event;
  log : list log_entry
}.

(** Issue one engine call and record it. *)
Definition call {A} (ev : db_event)
    (f : world eng -> outcome A * world eng) : M srv A :=
  fun s =>
    let (o, w) := f (db s) in
    (o, mkSrv w (events s ++ [ev]) (log s)).

Definition logger_error (entry : log_entry) : M srv unit :=
  modify (fun s => mkSrv (db s) (events s) (log s ++ [entry])).

Definition inspect : M srv (inspector eng) := call EvInspect (e_inspect eng).

Definition get_table_names (i : inspector eng) : M srv (list string) :=
  call EvGetTableNames (e_get_table_names eng i).

Definition get_columns (i : inspector eng) (table_name : string)
  : M srv (list column_info) :=
  call (EvGetColumns table_name) (e_get_columns eng i table_name).

Definition connect : M srv (conn eng) := call EvConnect (e_connect eng).

(** [conn.execute(text(q))].  [q] is the string the handler hands to
    [text()]; what [text()] and the driver make of it ([:name] read as a
    bind parameter, an escaped colon) happens inside [e_execute], and
    [EvExecute q] records the handler's string, not the statement the
    database finally sees. *)
Definition execute (c : conn eng) (q : string) : M srv (cursor eng) :=
  call (EvExecute q) (e_execute eng c q).

(** [[dict(r._mapping) for r in result]]. *)
Definition fetch (r : cursor eng) : M srv (list row) :=
  call EvFetch (e_fetch eng r).

Definition commit (c : conn eng) : M srv unit := call EvCommit (e_commit eng c).

Definition close (c : conn eng) : M srv unit := call EvClose (e_close eng c).

(** [with engine.connect() as conn: body]. *)
Definition with_connect {A} (body : conn eng -> M srv A) : M srv A :=
  c <- connect ;;
  try_finally (body c) (close c).

(** The statement [sample_data_resource] sends:
    [f"SELECT * FROM {table_name} LIMIT 5"]. *)
Definition sample_query (table_name : string) : string :=
  "SELECT * FROM " ++ table_name ++ " LIMIT 5".

(** The [try] block of [sample_data_resource]. *)
Definition sample_data_body (i : inspector eng) (table_name : string)
  : M srv SampleDataView :=
  infos <- get_columns i table_name ;;
  let cols := map ci_name infos in
  rs <- with_connect (fun c =>
          result <- execute c (sample_query table_name) ;;
          fetch result) ;;
  ret (mkSampleDataView table_name cols rs None).

(** Its [except Exception as e] clause. *)
Definition sample_data_handler (table_name : string) (e : exn)
  : M srv SampleDataView :=
  if isinstance_Exception e then
    logger_error (LogError ("Error fetching sample data for table "
                              ++ table_name ++ ": " ++ exn_str e)) ;;
    ret (mkSampleDataView table_name [] [] (Some (exn_str e)))
  else raise e.

Definition sample_data_resource (table_name : string) : M srv SampleDataView :=
  i <- inspect ;;
  try_except (sample_data_body i table_name) (sample_data_handler table_name).

Definition list_tables : M srv TableList :=
  i <- inspect ;;
  tables <- get_table_names i ;;
  ret (mkTableList tables).

(** The dict appended for one column. *)
Definition describe_column (col : column_info) : ColumnDescriptor :=
  mkColumnDescriptor (ci_name col) (ci_type col) (ci_nullable col) (ci_default col).

Definition describe_table (table_name : string) : M srv TableDescriptor :=
  i <- inspect ;;
  infos <- get_columns i table_name ;;
  ret (mkTableDescriptor table_name (map describe_column infos)).

(** The [try] block of [run_sql]. *)
Definition run_sql_body (sql_query : string) : M srv SQLQueryResult :=
  with_connect (fun c =>
    result <- execute c sql_query ;;
    if e_returns_rows eng result then
      rs <- fetch result ;;
      ret (mkSQLQueryResult true sql_query (Z.of_nat (length rs)) (Some rs) None)
    else
      commit c ;;
      ret (mkSQLQueryResult true sql_query (e_rowcount eng result) None None)).

(** What both [except] clauses return. *)
Definition failure (sql_query : string) (e : exn) : SQLQueryResult :=
  mkSQLQueryResult false sql_query 0 None (Some (exn_str e)).

(** [except SQLAlchemyError as e: ...  except Exception as e: ...]. *)
Definition run_sql_handler (sql_query : string) (e : exn) : M srv SQLQueryResult :=
  if isinstance_SQLAlchemyError e then
    logger_error (LogError ("SQL error: " ++ exn_str e)) ;;
    ret (failure sql_query e)
  else if isinstance_Exception e then
    logger_error (LogTraceback e) ;;
    ret (failure sql_query e)
  else raise e.

Definition run_sql (sql_query : string) : M srv SQLQueryResult :=
  try_except (run_sql_body sql_query) (run_sql_handler sql_query).

(** [handle_query_error]: builds the message list from its arguments and
    returns it; no engine call, no log line. *)
Definition handle_query_error (error_message : string)
    (table_name : option string) (sql_query : option string) : M srv PromptResult :=
  ret (mkPromptResult "..."
         [mkMessage "user"
            (mkTextContent "text" (guidance_text error_message sql_query))]).

End Handlers.

Arguments db {eng} s.
Arguments events {eng} s.
Arguments log {eng} s.

End Server.

(** ** client/db_client.py

    [structured_chat_loop] from its banner on.  What comes before it in
    the source (loading the environment, building the MCP client, the
    model and the agent) only produces the agent the loop then talks
    to. *)

Module Client.

(** [class TaskRequest(BaseModel)]: three optional strings. *)
Record TaskRequest : Type := mkTaskRequest {
  task_type : option string;
  description : option string;
  priority : option string
}.

(** The agent ([MCPAgent]) as the loop uses it: [agent.run(prompt)]
    gives text, [agent.run(prompt, output_schema=TaskRequest)] gives a
    [TaskRequest]; both may raise, and both change the agent (its
    conversation memory). *)
Record Agent : Type := {
  agent_state : Type;
  a_run : string -> agent_state -> outcome string * agent_state;
  a_run_structured : string -> agent_state -> outcome TaskRequest * agent_state
}.

(** What one [input()] call meets: a line, or a [KeyboardInterrupt]
    raised by the call itself.  That is what Ctrl-C does where the
    interpreter delivers it to the blocked [input()]; where
    [asyncio.run] handles the signal (Python 3.11 and later on POSIX) the
    first Ctrl-C cancels the task while [input()] keeps waiting, and
    that is not an [Interrupt] here.  An exhausted terminal is end of
    file. *)
Inductive console_in : Type :=
  | Line (text : string)
  | Interrupt.

(** What the loop writes: [print(...)] and the prompt of [input(...)]. *)
Inductive console_out : Type :=
  | Print (text : string)
  | Prompt (text : string).

(** The agent calls the loop issues. *)
Inductive agent_call : Type :=
  | Run (prompt : string)
  | RunStructured (prompt : string).

(** How one pass through the body of [while True] ends. *)
Inductive flow : Type :=
  | Continue
  | Break.

Section Loop.

(** [str.lower] of the Python runtime. *)
Variable lower : string -> string.

Variable ag : Agent.

(** The client process. *)
Record client : Type := mkClient {
  stdin : list console_in;
  stdout : list console_out;
  agent : agent_state ag;
  calls : list agent_call;
  sessions_closed : bool
}.

Definition print (text : string) : M client unit :=
  modify (fun s => mkClient (stdin s) (stdout s ++ [Print text]) (agent s)
                            (calls s) (sessions_closed s)).

(** [input(prompt)]: write the prompt, then read. *)
Definition input (prompt : string) : M client string :=
  fun s =>
    let out := stdout s ++ [Prompt prompt] in
    match stdin s with
    | [] =>
        (Raise (Exn EOFError "EOF when reading a line"),
         mkClient [] out (agent s) (calls s) (sessions_closed s))
    | Line text :: rest =>
        (Ret text, mkClient rest out (agent s) (calls s) (sessions_closed s))
    | Interrupt :: rest =>
        (Raise (Exn KeyboardInterrupt ""),
         mkClient rest out (agent s) (calls s) (sessions_closed s))
    end.

(** [await agent.run(prompt)]. *)
Definition agent_run (prompt : string) : M client string :=
  fun s =>
    let (o, a) := a_run ag prompt (agent s) in
    (o, mkClient (stdin s) (stdout s) a (calls s ++ [Run prompt])
                 (sessions_closed s)).

(** [await agent.run(prompt, output_schema=TaskRequest)]. *)
Definition agent_run_structured (prompt : string) : M client TaskRequest :=
  fun s =>
    let (o, a) := a_run_structured ag prompt (agent s) in
    (o, mkClient (stdin s) (stdout s) a (calls s ++ [RunStructured prompt])
                 (sessions_closed s)).

(** [await client.close_all_sessions()]. *)
Definition close_all_sessions : M client unit :=
  modify (fun s => mkClient (stdin s) (stdout s) (agent s) (calls s) true).

Definition analyze_prompt (task_description : string) : string :=
  "Analyze a task with the following description: " ++ task_description.

Definition execute_prompt (task : TaskRequest) : string :=
  "Execute the following task: " ++ format_opt (description task).

Definition confirm_prompt : string :=
  nl ++ "Do you want to proceed with this task? (y/n)".

Definition assistant_line (response : string) : string :=
  nl ++ "🤖 Assistant: " ++ response.

(** The [if user_input.lower() == 'task':] branch. *)
Definition task_branch : M client unit :=
  print (nl ++ "📋 Creating structured task...") ;;
  task_description <- input "Describe your task: " ;;
  task <- agent_run_structured (analyze_prompt task_description) ;;
  print (nl ++ "✅ Task Analysis:") ;;
  print ("• Type: " ++ format_opt (task_type task)) ;;
  print ("• Description: " ++ format_opt (description task)) ;;
  print ("• Priority: " ++ or_default (priority task) "low") ;;
  proceed <- input confirm_prompt ;;
  if lower proceed =? "y" then
    response <- agent_run (execute_prompt task) ;;
    print (assistant_line response)
  else ret tt.

(** The [else:] branch, regular conversation. *)
Definition chat_branch (user_input : string) : M client unit :=
  response <- agent_run user_input ;;
  print (assistant_line response).

(** The inner [try] block. *)
Definition turn_body (user_input : string) : M client flow :=
  (if lower user_input =? "task" then task_branch else chat_branch user_input) ;;
  ret Continue.

(** [except KeyboardInterrupt: ...  except Exception as e: ...]. *)
Definition turn_handler (e : exn) : M client flow :=
  if isinstance_KeyboardInterrupt e then
    print (nl ++ "👋 Goodbye!") ;;
    ret Break
  else if isinstance_Exception e then
    print ("❌ Error: " ++ exn_str e) ;;
    print "Please try again or type 'exit' to quit." ;;
    ret Continue
  else raise e.

(** One pass through the body of [while True]. *)
Definition turn : M client flow :=
  user_input <- input (nl ++ "You: ") ;;
  if (lower user_input =? "exit") || (lower user_input =? "quit") then
    print "👋 Goodbye!" ;;
    ret Break
  else
    try_except (turn_body user_input) turn_handler.

(** [while True: turn].  [None] is the loop still running when the fuel
    is spent. *)
Fixpoint while_true (fuel : nat) : M client (option unit) :=
  match fuel with
  | O => ret None
  | S fuel' =>
      f <- turn ;;
      match f with
      | Break => ret (Some tt)
      | Continue => while_true fuel'
      end
  end.

(** The loop between the banner and the [finally].  Every pass reads the
    terminal at least once and an exhausted terminal raises, so one more
    pass than there are terminal events is always enough. *)
Definition chat (fuel : nat) : M client (option unit) :=
  print "🤖 MCP Agent Chat (Structured)" ;;
  print "You can chat naturally or request structured task analysis" ;;
  print "Type 'task' to create a structured task request" ;;
  try_finally (while_true fuel) close_all_sessions.

Definition structured_chat_loop : M client (option unit) :=
  fun s => chat (S (length (stdin s))) s.

(** The pass that starts in [s] reaches an agent call and that call
    raises [e]: in regular conversation, in task extraction, or in the
    execution of a confirmed task. *)
Inductive agent_call_raises (s : client) (e : exn) : Prop :=
  | raises_in_conversation (user_input : string) (rest : list console_in)
      (a' : agent_state ag) :
      stdin s = Line user_input :: rest ->
      (lower user_input =? "exit") || (lower user_input =? "quit") = false ->
      (lower user_input =? "task") = false ->
      a_run ag user_input (agent s) = (Raise e, a') ->
      agent_call_raises s e
  | raises_in_extraction (user_input task_description : string)
      (rest : list console_in) (a' : agent_state ag) :
      stdin s = Line user_input :: Line task_description :: rest ->
      lower user_input = "task" ->
      a_run_structured ag (analyze_prompt task_description) (agent s)
      = (Raise e, a') ->
      agent_call_raises s e
  | raises_in_execution (user_input task_description proceed : string)
      (rest : list console_in) (task : TaskRequest) (a1 a2 : agent_state ag) :
      stdin s = Line user_input :: Line task_description :: Line proceed :: rest ->
      lower user_input = "task" ->
      a_run_structured ag (analyze_prompt task_description) (agent s)
      = (Ret task, a1) ->
      lower proceed = "y" ->
      a_run ag (execute_prompt task) a1 = (Raise e, a2) ->
      agent_call_raises s e.

(** The state after [input("\nYou: ")] has read a line. *)
Definition after_prompt (s : client) (rest : list console_in) : client :=
  mkClient rest (stdout s ++ [Prompt (nl ++ "You: ")]) (agent s) (calls s)
    (sessions_closed s).

(** The state of the task branch when it asks for confirmation has been
    answered: both lines read, the task extracted and shown. *)
Definition after_confirmation (s : client) (task_description : string)
    (task : TaskRequest) (a1 : agent_state ag) (rest : list console_in)
  : client :=
  mkClient rest
    (stdout s ++
       [Print (nl ++ "📋 Creating structured task...");
        Prompt "Describe your task: ";
        Print (nl ++ "✅ Task Analysis:");
        Print ("• Type: " ++ format_opt (task_type task));
        Print ("• Description: " ++ format_opt (description task));
        Print ("• Priority: " ++ or_default (priority task) "low");
        Prompt confirm_prompt])
    a1
    (calls s ++ [RunStructured (analyze_prompt task_description)])
    (sessions_closed s).

(** A computation that never gives the terminal lines back. *)
Definition reads_only {A} (m : M client A) : Prop :=
  forall s o s', m s = (o, s') -> length (stdin s') <= length (stdin s).

(** Agent calls issued plus terminal events still unread. *)
Definition pending (s : client) : Z :=
  Z.of_nat (length (calls s)) + Z.of_nat (length (stdin s)).

(** [paced r x m]: [m] raises [pending] by at most [r] when it returns
    and by at most [x] when it raises. *)
Definition paced {A} (r x : Z) (m : M client A) : Prop :=
  forall s o s', m s = (o, s') ->
    match o with
    | Ret _ => (pending s' <= pending s + r)%Z
    | Raise _ => (pending s' <= pending s + x)%Z
    end.

(** [keeps m]: [m] only adds to the screen and to the list of calls, and
    leaves the sessions as they are. *)
Definition keeps {A} (m : M client A) : Prop :=
  forall s o s', m s = (o, s') ->
    sessions_closed s' = sessions_closed s
    /\ (exists out, stdout s' = stdout s ++ out)
    /\ (exists new, calls s' = calls s ++ new).

End Loop.

Arguments stdin {ag} c.
Arguments stdout {ag} c.
Arguments agent {ag} c.
Arguments calls {ag} c.
Arguments sessions_closed {ag} c.
Arguments after_prompt {ag} s rest.
Arguments after_confirmation {ag} s task_description task a1 rest.
Arguments reads_only {ag A} m.
Arguments pending {ag} s.
Arguments paced {ag A} r x m.
Arguments keeps {ag A} m.

(** [str.lower] on ASCII text, where it is total and known. *)
Definition ascii_lower_char (c : ascii) : ascii :=
  let n := nat_of_ascii c in
  if (65 <=? n)%nat && (n <=? 90)%nat then ascii_of_nat (n + 32) else c.

Fixpoint ascii_lower (s : string) : string :=
  match s with
  | EmptyString => EmptyString
  | String c s' => String (ascii_lower_char c) (ascii_lower s')
  end.

End Client.

(** ** Concrete collaborators

    An in-memory engine and a scripted agent, to run the handlers and
    the loop on.  The engine answers from a fixed table of statements
    and keeps a catalog; [strict] chooses what its inspector does with a
    table that is not in the catalog: raise [NoSuchTableError], as
    SQLAlchemy's PostgreSQL dialect does, or report no columns. *)

Module Scenarios.

Import Server Client.

Inductive reply : Type :=
  | Rows (rs : list row)
  | Affected (n : Z)
  | Fails (e : exn).

Record memdb : Type := mkMemdb {
  online : bool;
  catalog : list (string * list column_info);
  commits : nat
}.

Definition connection_refused : exn :=
  Exn OperationalError "connection to server failed: Connection refused".

(** [inspect(engine)] and [engine.connect()] both open a connection. *)
Definition mem_reach (w : memdb) : outcome unit * memdb :=
  if online w then (Ret tt, w) else (Raise connection_refused, w).

Fixpoint lookup {A} (k : string) (l : list (string * A)) : option A :=
  match l with
  | [] => None
  | (k', v) :: l' => if k =? k' then Some v else lookup k l'
  end.

Definition mem_get_columns (strict : bool) (t : string) (w : memdb)
  : outcome (list column_info) * memdb :=
  match lookup t (catalog w) with
  | Some cols => (Ret cols, w)
  | None => if strict then (Raise (Exn NoSuchTableError t), w) else (Ret [], w)
  end.

Definition mem_execute (stmts : list (string * reply)) (q : string) (w : memdb)
  : outcome reply * memdb :=
  match lookup q stmts with
  | Some (Fails e) => (Raise e, w)
  | Some r => (Ret r, w)
  | None => (Raise (Exn ProgrammingError ("syntax error in: " ++ q)), w)
  end.

Definition mem_fetch (r : reply) (w : memdb) : outcome (list row) * memdb :=
  match r with
  | Rows rs => (Ret rs, w)
  | _ => (Raise (Exn ProgrammingError "This result object does not return rows."), w)
  end.

Definition mem_engine (strict : bool) (stmts : list (string * reply)) : Engine := {|
  world := memdb;
  inspector := unit;
  conn := unit;
  cursor := reply;
  e_inspect := mem_reach;
  e_get_table_names := fun _ w => (Ret (map fst (catalog w)), w);
  e_get_columns := fun _ => mem_get_columns strict;
  e_connect := mem_reach;
  e_execute := fun _ => mem_execute stmts;
  e_returns_rows := fun r => match r with Rows _ => true | _ => false end;
  e_rowcount := fun r => match r with Affected n => n | _ => (-1)%Z end;
  e_fetch := mem_fetch;
  e_commit := fun _ w => (Ret tt, mkMemdb (online w) (catalog w) (S (commits w)));
  e_close := fun _ w => (Ret tt, w)
|}.

Definition books_columns : list column_info :=
  [ ColumnInfo "id" "INTEGER" false None;
    ColumnInfo "title" "VARCHAR(200)" true None ].

Definition book (id : Z) (title : string) : row :=
  [("id", VInt id); ("title", VText title)].

Definition three_books : list row :=
  [book 1 "Dune"; book 2 "Emma"; book 3 "Ulysses"].

Definition syntax_error : exn :=
  Exn ProgrammingError "syntax error at or near 'SELEC'".

(** Table [books] with three rows (scenarios A and B of the
    specification) and a statement that fails. *)
Definition library_statements : list (string * reply) :=
  [ ("SELECT * FROM books", Rows three_books);
    ("SELECT * FROM books LIMIT 5", Rows three_books);
    ("UPDATE books SET title='X' WHERE id=1", Affected 1);
    ("SELEC * FROM books", Fails syntax_error) ].

Definition library : memdb := mkMemdb true [("books", books_columns)] 0.

(** The same database with the server down. *)
Definition unreachable : memdb := mkMemdb false [("books", books_columns)] 0.

Definition postgres : Engine := mem_engine true library_statements.
Definition lenient : Engine := mem_engine false library_statements.

Definition postgres0 : srv postgres := mkSrv postgres library [] [].
Definition lenient0 : srv lenient := mkSrv lenient library [] [].
Definition unreachable0 : srv postgres := mkSrv postgres unreachable [] [].

(** An agent that plays a script: each call takes the next entry. *)
Inductive scripted : Type :=
  | Says (text : string)
  | Extracts (task : TaskRequest)
  | Throws (e : exn).

Definition off_script : exn := Exn RuntimeError "unexpected call".

Definition script_run (_ : string) (st : list scripted)
  : outcome string * list scripted :=
  match st with
  | Says text :: st' => (Ret text, st')
  | Throws e :: st' => (Raise e, st')
  | Extracts _ :: st' => (Raise off_script, st')
  | [] => (Raise off_script, [])
  end.

Definition script_run_structured (_ : string) (st : list scripted)
  : outcome TaskRequest * list scripted :=
  match st with
  | Extracts task :: st' => (Ret task, st')
  | Throws e :: st' => (Raise e, st')
  | Says _ :: st' => (Raise off_script, st')
  | [] => (Raise off_script, [])
  end.

Definition script_agent : Agent := {|
  agent_state := list scripted;
  a_run := script_run;
  a_run_structured := script_run_structured
|}.

Definition client0 (keys : list console_in) (script : list scripted)
  : client script_agent :=
  mkClient script_agent keys [] script [] false.

Definition weekly_report : TaskRequest :=
  mkTaskRequest (Some "reporting") (Some "send weekly report") None.

Definition step_budget : exn :=
  Exn RuntimeError "Agent stopped after reaching the maximum number of steps (20).".

(** The in-memory engine with faults at the end of a transaction:
    [commit_error] is raised by [conn.commit()], [close_error] by the
    close that leaves the [with] block. *)
Definition faulty_engine (commit_error close_error : option exn) : Engine := {|
  world := memdb;
  inspector := unit;
  conn := unit;
  cursor := reply;
  e_inspect := mem_reach;
  e_get_table_names := fun _ w => (Ret (map fst (catalog w)), w);
  e_get_columns := fun _ => mem_get_columns true;
  e_connect := mem_reach;
  e_execute := fun _ => mem_execute library_statements;
  e_returns_rows := fun r => match r with Rows _ => true | _ => false end;
  e_rowcount := fun r => match r with Affected n => n | _ => (-1)%Z end;
  e_fetch := mem_fetch;
  e_commit := fun _ w =>
    match commit_error with
    | Some e => (Raise e, w)
    | None => (Ret tt, mkMemdb (online w) (catalog w) (S (commits w)))
    end;
  e_close := fun _ w =>
    match close_error with
    | Some e => (Raise e, w)
    | None => (Ret tt, w)
    end
|}.

Definition deferred_violation : exn :=
  Exn IntegrityError "violates foreign key constraint (deferred)".

Definition connection_lost : exn :=
  Exn OperationalError "server closed the connection unexpectedly".

Definition update_book : string := "UPDATE books SET title='X' WHERE id=1".

(** Two sessions at the terminal. *)
Definition declined : client script_agent :=
  client0 [Line "task"; Line "send weekly report"; Line "n"; Line "exit"]
    [Extracts weekly_report].

Definition accepted : client script_agent :=
  client0 [Line "Task"; Line "send weekly report"; Line "Y"; Line "exit"]
    [Extracts weekly_report; Says "Report sent."].

Definition over_budget : client script_agent :=
  client0 [Line "TASK"; Line "send weekly report"; Line "Y"; Line "quit"]
    [Extracts weekly_report; Throws step_budget].

End Scenarios.

(** * Sequencing *)

Section Steps.

(** How [bind] runs once the outcome of its first part is known. *)
Lemma bind_ret_step {S A B} (m : M S A) (k : A -> M S B) {s s' : S} {a : A} :
  m s = (Ret a, s') -> bind m k s = k a s'.
Proof.
  intros Hm. unfold bind. rewrite Hm. reflexivity.
Qed.

Lemma bind_raise_step {S A B} (m : M S A) (k : A -> M S B) {s s' : S} {e : exn} :
  m s = (Raise e, s') -> bind m k s = (Raise e, s').
Proof.
  intros Hm. unfold bind. rewrite Hm. reflexivity.
Qed.

End Steps.

(** * Properties of the server *)

Section ServerProofs.

Import Server.

Variable eng : Engine.

(** ** Running single calls *)

Lemma call_runs {A} (ev : db_event) (f : world eng -> outcome A * world eng)
    (s : srv eng) {o : outcome A} {w : world eng} :
  f (db s) = (o, w) ->
  call eng ev f s = (o, mkSrv eng w (events s ++ [ev]) (log s)).
Proof.
  intros Hf. unfold call. rewrite Hf. reflexivity.
Qed.

(** No [except] clause of the server lets an [Exception] through, and
    each one that matches returns a value. *)
Lemma run_sql_handler_catches (q : string) (e : exn) (s : srv eng) :
  isinstance_Exception e = true ->
  exists entry,
    run_sql_handler eng q e s
    = (Ret (failure q e), mkSrv eng (db s) (events s) (log s ++ [entry])).
Proof.
  intros He. unfold run_sql_handler.
  destruct (isinstance_SQLAlchemyError e).
  - eexists. reflexivity.
  - rewrite He. eexists. reflexivity.
Qed.

Lemma run_sql_handler_reraises (q : string) (e e' : exn) (s s' : srv eng) :
  run_sql_handler eng q e s = (Raise e', s') ->
  isinstance_Exception e' = false.
Proof.
  unfold run_sql_handler.
  destruct (isinstance_SQLAlchemyError e); [discriminate |].
  destruct (isinstance_Exception e) eqn:He; [discriminate |].
  intros H. inversion H. subst. exact He.
Qed.

Lemma run_sql_handler_result (q : string) (e : exn) (s s' : srv eng)
    (r : SQLQueryResult) :
  run_sql_handler eng q e s = (Ret r, s') -> r = failure q e.
Proof.
  unfold run_sql_handler.
  destruct (isinstance_SQLAlchemyError e).
  - intros H. inversion H. reflexivity.
  - destruct (isinstance_Exception e).
    + intros H. inversion H. reflexivity.
    + discriminate.
Qed.

(** What the [try] block of [run_sql] can return: one of the two
    success shapes. *)
Lemma run_sql_body_result (q : string) (s s' : srv eng) (r : SQLQueryResult) :
  run_sql_body eng q s = (Ret r, s') ->
  success r = true /\ sql r = q /\ error r = None /\
  ((exists rs, rows r = Some rs /\ row_count r = Z.of_nat (length rs))
   \/ rows r = None).
Proof.
  unfold run_sql_body, with_connect, bind, try_finally.
  destruct (connect eng s) as [[c | e] s1]; [| discriminate].
  destruct (execute eng c q s1) as [[cur | e] s2].
  - destruct (e_returns_rows eng cur).
    + destruct (fetch eng cur s2) as [[rs | e] s3].
      * unfold ret.
        destruct (close eng c s3) as [[[] | e] s4]; [| discriminate].
        intros H. inversion H. subst. cbn. repeat split.
        left. exists rs. split; reflexivity.
      * destruct (close eng c s3) as [[[] | e'] s4]; discriminate.
    + destruct (commit eng c s2) as [[[] | e] s3].
      * unfold ret.
        destruct (close eng c s3) as [[[] | e] s4]; [| discriminate].
        intros H. inversion H. subst. cbn. repeat split.
        right. reflexivity.
      * destruct (close eng c s3) as [[[] | e'] s4]; discriminate.
  - destruct (close eng c s2) as [[[] | e'] s3]; discriminate.
Qed.

(** No [Exception] leaves [run_sql]: whatever it lets through is a
    [BaseException] such as [KeyboardInterrupt]. *)
Lemma run_sql_no_exception_escapes (q : string) (s s' : srv eng) (e : exn) :
  run_sql eng q s = (Raise e, s') -> isinstance_Exception e = false.
Proof.
  unfold run_sql, try_except.
  destruct (run_sql_body eng q s) as [[r | e0] s1]; [discriminate |].
  apply run_sql_handler_reraises.
Qed.

(** ** describe_table *)

(** C1 (amended).  [describe_table] has no handler of its own: once
    [inspect(engine)] has returned, its outcome is the inspector's.  When
    [get_columns] returns a list the call returns [table = table_name]
    with one descriptor per reported column, hence an empty column
    sequence when the inspector reports none; when [get_columns] raises,
    that same exception leaves [describe_table]. *)
Theorem describe_table_follows_inspector (table_name : string) (s : srv eng)
    (i : inspector eng) (w1 : world eng) :
  e_inspect eng (db s) = (Ret i, w1) ->
  match e_get_columns eng i table_name w1 with
  | (Ret infos, w2) =>
      describe_table eng table_name s
      = (Ret (mkTableDescriptor table_name (map describe_column infos)),
         mkSrv eng w2 (events s ++ [EvInspect; EvGetColumns table_name]) (log s))
      /\ (infos = [] ->
          exists s', describe_table eng table_name s
                     = (Ret (mkTableDescriptor table_name []), s'))
  | (Raise e, w2) =>
      describe_table eng table_name s
      = (Raise e,
         mkSrv eng w2 (events s ++ [EvInspect; EvGetColumns table_name]) (log s))
  end.
Proof.
  intros Hi.
  assert (Hstep : forall o w2,
             e_get_columns eng i table_name w1 = (o, w2) ->
             get_columns eng i table_name
               (mkSrv eng w1 (events s ++ [EvInspect]) (log s))
             = (o, mkSrv eng w2 (events s ++ [EvInspect; EvGetColumns table_name])
                     (log s))).
  { intros o w2 Hg. unfold get_columns.
    rewrite (call_runs (EvGetColumns table_name) _ (mkSrv eng w1 _ _) Hg).
    cbn. rewrite <- app_assoc. reflexivity. }
  destruct (e_get_columns eng i table_name w1) as [[infos | e] w2] eqn:Hg.
  - assert (Hrun : describe_table eng table_name s
                   = (Ret (mkTableDescriptor table_name (map describe_column infos)),
                      mkSrv eng w2 (events s ++ [EvInspect; EvGetColumns table_name])
                        (log s))).
    { unfold describe_table.
      rewrite (bind_ret_step _ _ (call_runs EvInspect _ s Hi)).
      rewrite (bind_ret_step _ _ (Hstep _ _ eq_refl)).
      reflexivity. }
    split; [exact Hrun |].
    intros ->. eexists. exact Hrun.
  - unfold describe_table.
    rewrite (bind_ret_step _ _ (call_runs EvInspect _ s Hi)).
    rewrite (bind_raise_step _ _ (Hstep _ _ eq_refl)).
    reflexivity.
Qed.

(** ** run_sql *)

(** Two of the ways the [try] block of [run_sql] raises: the pool gives
    no connection, or the statement fails and the connection is closed
    on the way out. *)
Lemma run_sql_body_connect_raises (q : string) (s : srv eng) (e : exn)
    (w1 : world eng) :
  e_connect eng (db s) = (Raise e, w1) ->
  run_sql_body eng q s = (Raise e, mkSrv eng w1 (events s ++ [EvConnect]) (log s)).
Proof.
  intros Hc. unfold run_sql_body, with_connect, connect.
  now rewrite (bind_raise_step _ _ (call_runs EvConnect _ s Hc)).
Qed.

Lemma run_sql_body_execute_raises (q : string) (s : srv eng) (e : exn)
    (c : conn eng) (w1 w2 w3 : world eng) :
  e_connect eng (db s) = (Ret c, w1) ->
  e_execute eng c q w1 = (Raise e, w2) ->
  e_close eng c w2 = (Ret tt, w3) ->
  run_sql_body eng q s
  = (Raise e, mkSrv eng w3 (events s ++ [EvConnect; EvExecute q; EvClose]) (log s)).
Proof.
  intros Hc Hx Hcl. unfold run_sql_body, with_connect, connect.
  rewrite (bind_ret_step _ _ (call_runs EvConnect _ s Hc)).
  unfold try_finally, execute.
  rewrite (bind_raise_step _ _ (call_runs (EvExecute q) _ (mkSrv eng w1 _ _) Hx)).
  unfold close. rewrite (call_runs EvClose _ (mkSrv eng w2 _ _) Hcl).
  cbn. rewrite <- !app_assoc. reflexivity.
Qed.


(** C3.  A statement that executes without error and returns rows:
    [run_sql] returns [success = true], all fetched rows, no error and
    [row_count = len(rows)], and the calls it issued are connect,
    execute, fetch, close: no commit. *)
Theorem run_sql_returns_rows (q : string) (s : srv eng)
    (c : conn eng) (cur : cursor eng) (rs : list row)
    (w1 w2 w3 w4 : world eng) :
  e_connect eng (db s) = (Ret c, w1) ->
  e_execute eng c q w1 = (Ret cur, w2) ->
  e_returns_rows eng cur = true ->
  e_fetch eng cur w2 = (Ret rs, w3) ->
  e_close eng c w3 = (Ret tt, w4) ->
  exists r s',
    run_sql eng q s = (Ret r, s')
    /\ success r = true
    /\ rows r = Some rs
    /\ error r = None
    /\ row_count r = Z.of_nat (length rs)
    /\ events s' = events s ++ [EvConnect; EvExecute q; EvFetch; EvClose]
    /\ ~ In EvCommit [EvConnect; EvExecute q; EvFetch; EvClose]
    /\ db s' = w4.
Proof.
  intros Hc Hx Hr Hf Hcl.
  exists (mkSQLQueryResult true q (Z.of_nat (length rs)) (Some rs) None).
  exists (mkSrv eng w4 (events s ++ [EvConnect; EvExecute q; EvFetch; EvClose]) (log s)).
  split.
  - unfold run_sql, try_except, run_sql_body, with_connect.
    unfold connect. rewrite (bind_ret_step _ _ (call_runs EvConnect _ s Hc)).
    unfold try_finally, execute.
    rewrite (bind_ret_step _ _ (call_runs (EvExecute q) _ (mkSrv eng w1 _ _) Hx)).
    rewrite Hr. unfold fetch.
    rewrite (bind_ret_step _ _ (call_runs EvFetch _ (mkSrv eng w2 _ _) Hf)).
    unfold ret, close.
    rewrite (call_runs EvClose _ (mkSrv eng w3 _ _) Hcl).
    cbn. rewrite <- !app_assoc. reflexivity.
  - cbn. repeat split.
    intros [H | [H | [H | [H | []]]]]; discriminate.
Qed.

(** C4.  A statement that executes without error and returns no rows:
    [run_sql] commits (connect, execute, commit, close) and returns
    [success = true], no rows, no error and the cursor's [rowcount]. *)
Theorem run_sql_commits (q : string) (s : srv eng)
    (c : conn eng) (cur : cursor eng)
    (w1 w2 w3 w4 : world eng) :
  e_connect eng (db s) = (Ret c, w1) ->
  e_execute eng c q w1 = (Ret cur, w2) ->
  e_returns_rows eng cur = false ->
  e_commit eng c w2 = (Ret tt, w3) ->
  e_close eng c w3 = (Ret tt, w4) ->
  exists r s',
    run_sql eng q s = (Ret r, s')
    /\ success r = true
    /\ rows r = None
    /\ error r = None
    /\ row_count r = e_rowcount eng cur
    /\ events s' = events s ++ [EvConnect; EvExecute q; EvCommit; EvClose]
    /\ db s' = w4.
Proof.
  intros Hc Hx Hr Hm Hcl.
  exists (mkSQLQueryResult true q (e_rowcount eng cur) None None).
  exists (mkSrv eng w4 (events s ++ [EvConnect; EvExecute q; EvCommit; EvClose]) (log s)).
  split.
  - unfold run_sql, try_except, run_sql_body, with_connect.
    unfold connect. rewrite (bind_ret_step _ _ (call_runs EvConnect _ s Hc)).
    unfold try_finally, execute.
    rewrite (bind_ret_step _ _ (call_runs (EvExecute q) _ (mkSrv eng w1 _ _) Hx)).
    rewrite Hr. unfold commit.
    rewrite (bind_ret_step _ _ (call_runs EvCommit _ (mkSrv eng w2 _ _) Hm)).
    unfold ret, close.
    rewrite (call_runs EvClose _ (mkSrv eng w3 _ _) Hcl).
    cbn. rewrite <- !app_assoc. reflexivity.
  - cbn. repeat split.
Qed.

(** C5.  Whatever the statement and whatever the engine does, [run_sql]
    either returns a result in which rows and error are not both
    present (exactly one of: rows only, error only, neither) and error is
    present exactly when [success = false], or lets through an
    exception that is not an [Exception]. *)
Theorem run_sql_envelope_invariant (q : string) (s : srv eng) :
  match fst (run_sql eng q s) with
  | Ret r =>
      ((rows r <> None /\ error r = None)
       \/ (rows r = None /\ error r <> None)
       \/ (rows r = None /\ error r = None))
      /\ ~ (rows r <> None /\ error r <> None)
      /\ (error r <> None <-> success r = false)
  | Raise e => isinstance_Exception e = false
  end.
Proof.
  destruct (run_sql eng q s) as [[r | e] s'] eqn:Hrun; cbn.
  - unfold run_sql, try_except in Hrun.
    destruct (run_sql_body eng q s) as [[r0 | e0] s1] eqn:Hbody.
    + inversion Hrun. subst r0 s1.
      destruct (run_sql_body_result _ _ _ _ Hbody)
        as (Hs & _ & He & [(rs & Hrows & _) | Hrows]);
        rewrite Hs, He, Hrows; repeat split;
        try (intros [_ H]; now apply H);
        try (intros H; now elim H); try discriminate.
      * left. split; [discriminate | reflexivity].
      * right. right. split; reflexivity.
    + apply run_sql_handler_result in Hrun. subst r. cbn.
      repeat split; try discriminate.
      * right. left. split; [reflexivity | discriminate].
      * intros [H _]. now apply H.
  - exact (run_sql_no_exception_escapes _ _ _ _ Hrun).
Qed.

(** ** sample_data_resource *)

(** What the [try] block of [sample_data_resource] returns when it
    returns: the inspector's column names and the rows fetched from the
    cursor of the one statement it sent, [sample_query table_name]. *)
Lemma sample_data_body_result (i : inspector eng) (table_name : string)
    (s s' : srv eng) (v : SampleDataView) :
  sample_data_body eng i table_name s = (Ret v, s') ->
  exists infos c cur rs w w' w'',
    e_execute eng c (sample_query table_name) w = (Ret cur, w')
    /\ e_fetch eng cur w' = (Ret rs, w'')
    /\ v = mkSampleDataView table_name (map ci_name infos) rs None.
Proof.
  unfold sample_data_body, with_connect, bind, try_finally,
    get_columns, connect, execute, fetch, close, call, ret.
  remember (sample_query table_name) as q eqn:Hq.
  destruct (e_get_columns eng i table_name (db s)) as [[infos | e] w1];
    cbn; [| discriminate].
  destruct (e_connect eng w1) as [[c | e] w2]; cbn; [| discriminate].
  destruct (e_execute eng c q w2) as [[cur | e] w3] eqn:Hx; cbn.
  - destruct (e_fetch eng cur w3) as [[rs | e] w4] eqn:Hf; cbn.
    + destruct (e_close eng c w4) as [[[] | e] w5]; cbn; [| discriminate].
      intros H. inversion H.
      exists infos, c, cur, rs, w2, w3, w4. repeat split; assumption.
    + destruct (e_close eng c w4) as [[[] | e'] w5]; cbn; discriminate.
  - destruct (e_close eng c w3) as [[[] | e'] w4]; cbn; discriminate.
Qed.

(** [inspect(engine)] stands before the [try]: what it raises leaves
    [sample_data_resource] as it is. *)
Lemma sample_data_inspect_error_escapes (table_name : string) (s : srv eng)
    (e : exn) (w1 : world eng) :
  e_inspect eng (db s) = (Raise e, w1) ->
  sample_data_resource eng table_name s
  = (Raise e, mkSrv eng w1 (events s ++ [EvInspect]) (log s)).
Proof.
  intros Hi. unfold sample_data_resource, inspect.
  now rewrite (bind_raise_step _ _ (call_runs EvInspect _ s Hi)).
Qed.

(** [engine.connect()] stands inside the [try]: an [Exception] it raises
    comes back as the empty view with the error's text. *)
Lemma sample_data_connect_error_is_returned (table_name : string) (s : srv eng)
    (i : inspector eng) (infos : list column_info) (e : exn)
    (w1 w2 w3 : world eng) :
  e_inspect eng (db s) = (Ret i, w1) ->
  e_get_columns eng i table_name w1 = (Ret infos, w2) ->
  e_connect eng w2 = (Raise e, w3) ->
  isinstance_Exception e = true ->
  fst (sample_data_resource eng table_name s)
  = Ret (mkSampleDataView table_name [] [] (Some (exn_str e))).
Proof.
  intros Hi Hg Hc He. unfold sample_data_resource, inspect.
  rewrite (bind_ret_step _ _ (call_runs EvInspect _ s Hi)).
  unfold try_except, sample_data_body, get_columns.
  rewrite (bind_ret_step _ _
             (call_runs (EvGetColumns table_name) _ (mkSrv eng w1 _ _) Hg)).
  cbv beta zeta. unfold with_connect, connect. unfold bind at 1.
  rewrite (bind_raise_step _ _ (call_runs EvConnect _ (mkSrv eng w2 _ _) Hc)).
  unfold sample_data_handler. rewrite He. reflexivity.
Qed.

(** ** handle_query_error *)

(** C7.  [handle_query_error] returns the same prompt from every server
    state and leaves the state as it was; the text of its one message is
    the fixed opening, the query as the f-string prints it (the query
    itself when one is given, [None] when it is absent), the fixed
    middle, the error message, and then the recovery script, whose three
    steps name [list_tables], [describe_table] and [run_sql] in that
    order. *)
Theorem handle_query_error_template (error_message : string)
    (table_name sql_query : option string) (s : srv eng) :
  handle_query_error eng error_message table_name sql_query s
  = (Ret (mkPromptResult "..."
            [mkMessage "user"
               (mkTextContent "text" (guidance_text error_message sql_query))]),
     s)
  /\ (forall s2 : srv eng,
        fst (handle_query_error eng error_message table_name sql_query s2)
        = fst (handle_query_error eng error_message table_name sql_query s))
  /\ guidance_text error_message sql_query
     = (("You attempted to run this SQL query:" ++ nl)
          ++ format_opt sql_query
          ++ (nl ++ nl ++ "It failed with the error:" ++ nl)
          ++ error_message
          ++ (nl ++ nl)
          ++ recovery_script)%string
  /\ (forall q, format_opt (Some q) = q)
  /\ format_opt None = "None"
  /\ recovery_script
     = (("Here are your options:" ++ nl ++ "1. Call ")
          ++ "list_tables"
          ++ ("() to check available tables." ++ nl ++ "2. Call ")
          ++ "describe_table"
          ++ ("(table_name) to inspect schema of the target table." ++ nl
              ++ "3. Once you have correct schema/columns, craft a corrected SQL and call ")
          ++ "run_sql"
          ++ ("()." ++ nl ++ "Which step will you take?"))%string.
Proof.
  repeat split.
Qed.

(** C10.  The prompt does not look at [table_name]: two calls that
    differ only there return the same result. *)
Theorem handle_query_error_ignores_table_name (error_message : string)
    (t1 t2 sql_query : option string) (s : srv eng) :
  handle_query_error eng error_message t1 sql_query s
  = handle_query_error eng error_message t2 sql_query s.
Proof.
  reflexivity.
Qed.

End ServerProofs.

(** ** The server on the in-memory engine *)

Section ServerRuns.

Import Server Scenarios.

(** Scenario A: three books. *)
Example run_sql_select_books :
  fst (run_sql postgres "SELECT * FROM books" postgres0)
  = Ret (mkSQLQueryResult true "SELECT * FROM books" 3 (Some three_books) None).
Proof. reflexivity. Qed.

(** Scenario B: one row updated, and the engine has seen one commit. *)
Example run_sql_update_book :
  run_sql postgres "UPDATE books SET title='X' WHERE id=1" postgres0
  = (Ret (mkSQLQueryResult true "UPDATE books SET title='X' WHERE id=1" 1 None None),
     mkSrv postgres (mkMemdb true [("books", books_columns)] 1)
       [EvConnect; EvExecute "UPDATE books SET title='X' WHERE id=1";
        EvCommit; EvClose] []).
Proof. reflexivity. Qed.

(** Scenario C holds on an inspector that reports no columns for a
    table it does not know. *)
Example describe_ghost_table_lenient :
  fst (describe_table lenient "ghost_table" lenient0)
  = Ret (mkTableDescriptor "ghost_table" []).
Proof. reflexivity. Qed.

Example describe_books :
  fst (describe_table postgres "books" postgres0)
  = Ret (mkTableDescriptor "books"
           [ mkColumnDescriptor "id" "INTEGER" false None;
             mkColumnDescriptor "title" "VARCHAR(200)" true None ]).
Proof. reflexivity. Qed.

(** C1 as stated fails where the inspector raises for a missing table:
    [ghost_table] is not among the tables [list_tables] reports, and
    [describe_table] lets [NoSuchTableError] out. *)
Lemma describe_table_ghost_table_raises :
  fst (list_tables postgres postgres0) = Ret (mkTableList ["books"])
  /\ ~ In "ghost_table" ["books"]
  /\ fst (describe_table postgres "ghost_table" postgres0)
     = Raise (Exn NoSuchTableError "ghost_table")
  /\ ~ (exists s', describe_table postgres "ghost_table" postgres0
                   = (Ret (mkTableDescriptor "ghost_table" []), s')).
Proof.
  split; [reflexivity |].
  split; [intros [H | []]; discriminate |].
  split; [reflexivity |].
  intros [s' H]. discriminate.
Qed.

Lemma describe_table_follows_inspector_witness :
  (exists s', describe_table lenient "ghost_table" lenient0
              = (Ret (mkTableDescriptor "ghost_table" []), s'))
  /\ describe_table postgres "ghost_table" postgres0
     = (Raise (Exn NoSuchTableError "ghost_table"),
        mkSrv postgres library [EvInspect; EvGetColumns "ghost_table"] []).
Proof.
  split.
  - exact (proj2 (describe_table_follows_inspector lenient "ghost_table"
                    lenient0 tt library eq_refl) eq_refl).
  - exact (describe_table_follows_inspector postgres "ghost_table"
             postgres0 tt library eq_refl).
Defined.


Lemma run_sql_returns_rows_witness :
  exists r s',
    run_sql postgres "SELECT * FROM books" postgres0 = (Ret r, s')
    /\ success r = true
    /\ rows r = Some three_books
    /\ error r = None
    /\ row_count r = 3%Z
    /\ events s' = [EvConnect; EvExecute "SELECT * FROM books"; EvFetch; EvClose]
    /\ ~ In EvCommit [EvConnect; EvExecute "SELECT * FROM books"; EvFetch; EvClose]
    /\ db s' = library.
Proof.
  exact (run_sql_returns_rows postgres "SELECT * FROM books" postgres0
           tt (Rows three_books) three_books library library library library
           eq_refl eq_refl eq_refl eq_refl eq_refl).
Defined.

Lemma run_sql_commits_witness :
  exists r s',
    run_sql postgres "UPDATE books SET title='X' WHERE id=1" postgres0 = (Ret r, s')
    /\ success r = true
    /\ rows r = None
    /\ error r = None
    /\ row_count r = 1%Z
    /\ events s'
       = [EvConnect; EvExecute "UPDATE books SET title='X' WHERE id=1";
          EvCommit; EvClose]
    /\ db s' = mkMemdb true [("books", books_columns)] 1.
Proof.
  exact (run_sql_commits postgres "UPDATE books SET title='X' WHERE id=1" postgres0
           tt (Affected 1) library library
           (mkMemdb true [("books", books_columns)] 1)
           (mkMemdb true [("books", books_columns)] 1)
           eq_refl eq_refl eq_refl eq_refl eq_refl).
Defined.

(** With the server down [run_sql] returns its failure result. *)
Example run_sql_unreachable :
  fst (run_sql postgres "SELECT * FROM books" unreachable0)
  = Ret (mkSQLQueryResult false "SELECT * FROM books" 0 None
           (Some "connection to server failed: Connection refused")).
Proof. reflexivity. Qed.

(** C6 (defect of the code).  With the server down, [inspect(engine)],
    which stands before the [try], raises [OperationalError], an
    [Exception], and [sample_data_resource] lets it through: no view is
    returned and nothing is logged.  C6 says every such error comes back
    as [columns = []], [sample_rows = []], [error = str(e)]; that is what
    [run_sql] does with the same error in the same state, and what
    [sample_data_resource] itself does when the error comes from
    [engine.connect()] one statement later. *)
Lemma sample_data_unreachable_raises :
  isinstance_Exception connection_refused = true
  /\ sample_data_resource postgres "books" unreachable0
     = (Raise connection_refused, mkSrv postgres unreachable [EvInspect] [])
  /\ ~ (exists v s', sample_data_resource postgres "books" unreachable0 = (Ret v, s'))
  /\ fst (run_sql postgres "SELECT * FROM books LIMIT 5" unreachable0)
     = Ret (mkSQLQueryResult false "SELECT * FROM books LIMIT 5" 0 None
              (Some (exn_str connection_refused))).
Proof.
  split; [reflexivity |].
  split; [reflexivity |].
  split; [| reflexivity].
  intros (v & s' & H). discriminate.
Qed.

End ServerRuns.

(** * Properties of the chat loop *)

Section ClientProofs.

Import Client.

Variable lower : string -> string.
Variable ag : Agent.

(** ** Running single steps *)

Lemma print_runs (text : string) (s : client ag) :
  print ag text s
  = (Ret tt, mkClient ag (stdin s) (stdout s ++ [Print text]) (agent s)
               (calls s) (sessions_closed s)).
Proof. reflexivity. Qed.

Lemma input_reads (prompt text : string) (rest : list console_in) (s : client ag) :
  stdin s = Line text :: rest ->
  input ag prompt s
  = (Ret text, mkClient ag rest (stdout s ++ [Prompt prompt]) (agent s)
                 (calls s) (sessions_closed s)).
Proof.
  intros Hin. unfold input. rewrite Hin. reflexivity.
Qed.

Lemma agent_run_runs (prompt : string) (s : client ag)
    (o : outcome string) (a : agent_state ag) :
  a_run ag prompt (agent s) = (o, a) ->
  agent_run ag prompt s
  = (o, mkClient ag (stdin s) (stdout s) a (calls s ++ [Run prompt])
          (sessions_closed s)).
Proof.
  intros Hrun. unfold agent_run. rewrite Hrun. reflexivity.
Qed.

Lemma agent_run_structured_runs (prompt : string) (s : client ag)
    (o : outcome TaskRequest) (a : agent_state ag) :
  a_run_structured ag prompt (agent s) = (o, a) ->
  agent_run_structured ag prompt s
  = (o, mkClient ag (stdin s) (stdout s) a (calls s ++ [RunStructured prompt])
          (sessions_closed s)).
Proof.
  intros Hrun. unfold agent_run_structured. rewrite Hrun. reflexivity.
Qed.

(** ** One pass through the loop body *)

Lemma turn_dispatch (s : client ag) (user_input : string) (rest : list console_in) :
  stdin s = Line user_input :: rest ->
  (lower user_input =? "exit") || (lower user_input =? "quit") = false ->
  turn lower ag s
  = try_except (turn_body lower ag user_input) (turn_handler ag) (after_prompt s rest).
Proof.
  intros Hin Hcmd. unfold turn.
  rewrite (bind_ret_step _ _ (input_reads _ _ _ s Hin)).
  rewrite Hcmd. reflexivity.
Qed.

Lemma task_is_no_exit (user_input : string) :
  lower user_input = "task" ->
  (lower user_input =? "exit") || (lower user_input =? "quit") = false.
Proof.
  intros ->. reflexivity.
Qed.

Lemma exception_is_no_interrupt (e : exn) :
  isinstance_Exception e = true -> isinstance_KeyboardInterrupt e = false.
Proof.
  unfold isinstance_Exception, isinstance_KeyboardInterrupt.
  destruct (exn_cls e); (reflexivity || discriminate).
Qed.

(** The [except Exception] clause: two lines to the user, then on to the
    next pass. *)
Lemma turn_handler_recovers (e : exn) (s : client ag) :
  isinstance_Exception e = true ->
  turn_handler ag e s
  = (Ret Continue,
     mkClient ag (stdin s)
       (stdout s ++ [Print ("❌ Error: " ++ exn_str e);
                     Print "Please try again or type 'exit' to quit."])
       (agent s) (calls s) (sessions_closed s)).
Proof.
  intros He. unfold turn_handler.
  rewrite (exception_is_no_interrupt e He), He.
  cbn. rewrite <- app_assoc. reflexivity.
Qed.

Lemma task_branch_asks (s : client ag) (task_description proceed : string)
    (rest : list console_in) (task : TaskRequest) (a1 : agent_state ag) :
  stdin s = Line task_description :: Line proceed :: rest ->
  a_run_structured ag (analyze_prompt task_description) (agent s) = (Ret task, a1) ->
  task_branch lower ag s
  = (if lower proceed =? "y"
     then bind (agent_run ag (execute_prompt task))
            (fun response => print ag (assistant_line response))
     else ret tt)
      (after_confirmation s task_description task a1 rest).
Proof.
  intros Hin Hext.
  destruct s as [keys out a cs closed].
  cbn [stdin agent] in Hin, Hext. subst keys.
  unfold task_branch.
  rewrite (bind_ret_step _ _ (print_runs _ _)).
  cbn [stdin stdout agent calls sessions_closed].
  rewrite (bind_ret_step _ _ (input_reads _ _ _ (mkClient ag _ _ _ _ _) eq_refl)).
  cbn [stdin stdout agent calls sessions_closed].
  rewrite (bind_ret_step _ _
             (agent_run_structured_runs _ (mkClient ag _ _ _ _ _) _ _ Hext)).
  cbn [stdin stdout agent calls sessions_closed].
  repeat (rewrite (bind_ret_step _ _ (print_runs _ _));
          cbn [stdin stdout agent calls sessions_closed]).
  rewrite (bind_ret_step _ _ (input_reads _ _ _ (mkClient ag _ _ _ _ _) eq_refl)).
  unfold after_confirmation. cbn [stdin stdout agent calls sessions_closed].
  rewrite <- !app_assoc. reflexivity.
Qed.

Lemma turn_handler_keeps_calls (e : exn) (s : client ag) :
  calls (snd (turn_handler ag e s)) = calls s.
Proof.
  unfold turn_handler.
  destruct (isinstance_KeyboardInterrupt e); [reflexivity |].
  destruct (isinstance_Exception e); reflexivity.
Qed.

Lemma turn_handler_keeps_agent (e : exn) (s : client ag) :
  agent (snd (turn_handler ag e s)) = agent s.
Proof.
  unfold turn_handler.
  destruct (isinstance_KeyboardInterrupt e); [reflexivity |].
  destruct (isinstance_Exception e); reflexivity.
Qed.

(** Any [Exception] out of the inner [try] block is shown to the user and
    the pass ends with [Continue]. *)
Lemma turn_recovers (s s1 : client ag) (user_input : string)
    (rest : list console_in) (e : exn) :
  stdin s = Line user_input :: rest ->
  (lower user_input =? "exit") || (lower user_input =? "quit") = false ->
  turn_body lower ag user_input (after_prompt s rest) = (Raise e, s1) ->
  isinstance_Exception e = true ->
  turn lower ag s
  = (Ret Continue,
     mkClient ag (stdin s1)
       (stdout s1 ++ [Print ("❌ Error: " ++ exn_str e);
                      Print "Please try again or type 'exit' to quit."])
       (agent s1) (calls s1) (sessions_closed s1)).
Proof.
  intros Hin Hcmd Hbody He.
  rewrite (turn_dispatch s _ _ Hin Hcmd).
  unfold try_except. rewrite Hbody.
  apply turn_handler_recovers. exact He.
Qed.

(** Where the inner [try] block stops when an agent call raises. *)
Lemma agent_call_raises_in_body (s : client ag) (e : exn) :
  agent_call_raises lower ag s e ->
  exists user_input rest s1,
    stdin s = Line user_input :: rest
    /\ (lower user_input =? "exit") || (lower user_input =? "quit") = false
    /\ turn_body lower ag user_input (after_prompt s rest) = (Raise e, s1)
    /\ sessions_closed s1 = sessions_closed s.
Proof.
  intros [u rest a' Hin Hcmd Htask Hrun
         | u d rest a' Hin Hu Hrun
         | u d p rest t a1 a2 Hin Hu Hext Hp Hrun].
  - exists u, rest. eexists.
    split; [exact Hin |]. split; [exact Hcmd |]. split.
    + unfold turn_body. rewrite Htask. unfold chat_branch.
      rewrite (bind_raise_step _ _
                 (bind_raise_step _ _
                    (agent_run_runs u (after_prompt s rest) _ _ Hrun))).
      reflexivity.
    + reflexivity.
  - exists u, (Line d :: rest). eexists.
    split; [exact Hin |]. split; [exact (task_is_no_exit u Hu) |]. split.
    + unfold turn_body. rewrite Hu. cbn [String.eqb Ascii.eqb Bool.eqb].
      apply bind_raise_step. unfold task_branch, after_prompt.
      rewrite (bind_ret_step _ _ (print_runs _ _)).
      cbn [stdin stdout agent calls sessions_closed].
      rewrite (bind_ret_step _ _
                 (input_reads _ _ _ (mkClient ag _ _ _ _ _) eq_refl)).
      cbn [stdin stdout agent calls sessions_closed].
      rewrite (bind_raise_step _ _
                 (agent_run_structured_runs _ (mkClient ag _ _ _ _ _) _ _ Hrun)).
      reflexivity.
    + reflexivity.
  - exists u, (Line d :: Line p :: rest). eexists.
    split; [exact Hin |]. split; [exact (task_is_no_exit u Hu) |]. split.
    + unfold turn_body. rewrite Hu. cbn [String.eqb Ascii.eqb Bool.eqb].
      apply bind_raise_step.
      rewrite (task_branch_asks (after_prompt s (Line d :: Line p :: rest))
                 d p rest t a1 eq_refl Hext).
      rewrite Hp. cbn [String.eqb Ascii.eqb Bool.eqb].
      rewrite (bind_raise_step _ _
                 (agent_run_runs _ (after_confirmation _ _ _ _ _) _ _ Hrun)).
      reflexivity.
    + reflexivity.
Qed.

(** ** The loop *)

(** A pass that ends with [Continue] hands over to the next pass. *)
Lemma while_true_continues (fuel : nat) (s s' : client ag) :
  turn lower ag s = (Ret Continue, s') ->
  while_true lower ag (S fuel) s = while_true lower ag fuel s'.
Proof.
  intros Hturn. cbn [while_true].
  rewrite (bind_ret_step _ _ Hturn). reflexivity.
Qed.

(** C9.  When an agent call of a pass raises an [Exception], in regular
    conversation, in task extraction or in task execution, the pass
    ends with [Continue]: the last two lines written are the error and
    the invitation to try again, the sessions are not closed by it, and
    the loop goes on with the next pass. *)
Theorem agent_error_returns_to_idle (s : client ag) (e : exn) :
  agent_call_raises lower ag s e ->
  isinstance_Exception e = true ->
  exists s',
    turn lower ag s = (Ret Continue, s')
    /\ (exists out,
          stdout s' = out ++ [Print ("❌ Error: " ++ exn_str e);
                              Print "Please try again or type 'exit' to quit."])
    /\ sessions_closed s' = sessions_closed s
    /\ (forall fuel,
          while_true lower ag (S fuel) s = while_true lower ag fuel s').
Proof.
  intros Hraises He.
  destruct (agent_call_raises_in_body s e Hraises)
    as (u & rest & s1 & Hin & Hcmd & Hbody & Hclosed).
  pose proof (turn_recovers s s1 u rest e Hin Hcmd Hbody He) as Hturn.
  eexists. split; [exact Hturn |].
  split; [eexists; reflexivity |].
  split; [exact Hclosed |].
  intros fuel. exact (while_true_continues fuel _ _ Hturn).
Qed.

(** C8.  In a pass where the user typed [task], described it, and the
    extraction returned a task: the pass goes on to an execution call
    exactly when the lowercased answer to the confirmation question is
    [y].  Then it is one call, to the agent as the extraction left it,
    with the text [Execute the following task: ] followed by the
    extracted task's description.  With any other answer no further
    agent call is issued, the task is dropped, and the pass ends with
    [Continue] into the next one. *)
Theorem confirmation_gate (s : client ag)
    (user_input task_description proceed : string)
    (rest : list console_in) (task : TaskRequest) (a1 : agent_state ag) :
  stdin s = Line user_input :: Line task_description :: Line proceed :: rest ->
  lower user_input = "task" ->
  a_run_structured ag
    ("Analyze a task with the following description: " ++ task_description)
    (agent s)
  = (Ret task, a1) ->
  exists issued,
    calls (snd (turn lower ag s))
    = calls s
      ++ RunStructured
           ("Analyze a task with the following description: " ++ task_description)
         :: issued
    /\ ((exists prompt, In (Run prompt) issued) <-> lower proceed = "y")
    /\ (lower proceed = "y" ->
        issued
        = [Run ("Execute the following task: "
                  ++ match description task with
                     | Some d => d
                     | None => "None"
                     end)]
        /\ agent (snd (turn lower ag s))
           = snd (a_run ag
                    ("Execute the following task: "
                       ++ match description task with
                          | Some d => d
                          | None => "None"
                          end)
                    a1))
    /\ (lower proceed <> "y" ->
        issued = []
        /\ exists s',
            turn lower ag s = (Ret Continue, s')
            /\ agent s' = a1
            /\ stdin s' = rest
            /\ sessions_closed s' = sessions_closed s
            /\ forall fuel,
                while_true lower ag (S fuel) s = while_true lower ag fuel s').
Proof.
  intros Hin Hu Hext.
  change ("Analyze a task with the following description: " ++ task_description)%string
    with (analyze_prompt task_description) in Hext |- *.
  change ("Execute the following task: "
            ++ match description task with
               | Some d => d
               | None => "None"
               end)%string
    with (execute_prompt task).
  assert (Hturn : turn lower ag s
                  = try_except
                      (bind
                         (if lower proceed =? "y"
                          then bind (agent_run ag (execute_prompt task))
                                 (fun response => print ag (assistant_line response))
                          else ret tt)
                         (fun _ => ret Continue))
                      (turn_handler ag)
                      (after_confirmation
                         (after_prompt s
                            (Line task_description :: Line proceed :: rest))
                         task_description task a1 rest)).
  { rewrite (turn_dispatch s _ _ Hin (task_is_no_exit user_input Hu)).
    unfold try_except, turn_body, bind at 1 3.
    rewrite Hu. cbn [String.eqb Ascii.eqb Bool.eqb].
    rewrite (task_branch_asks
               (after_prompt s (Line task_description :: Line proceed :: rest))
               task_description proceed rest task a1 eq_refl Hext).
    reflexivity. }
  destruct (lower proceed =? "y") eqn:Hy.
  - apply String.eqb_eq in Hy.
    exists [Run (execute_prompt task)].
    assert (Hrun : calls (snd (turn lower ag s))
                   = calls s ++ [RunStructured (analyze_prompt task_description);
                                 Run (execute_prompt task)]
                   /\ agent (snd (turn lower ag s))
                      = snd (a_run ag (execute_prompt task) a1)).
    { rewrite Hturn. unfold try_except.
      destruct (a_run ag (execute_prompt task) a1) as [[response | e] a2] eqn:Hrun.
      - rewrite (bind_ret_step _ _
                   (bind_ret_step _ _
                      (agent_run_runs _ (after_confirmation _ _ _ _ _) _ _ Hrun))).
        cbn. rewrite <- app_assoc. split; reflexivity.
      - rewrite (bind_raise_step _ _
                   (bind_raise_step _ _
                      (agent_run_runs _ (after_confirmation _ _ _ _ _) _ _ Hrun))).
        rewrite turn_handler_keeps_calls, turn_handler_keeps_agent.
        cbn. rewrite <- app_assoc. split; reflexivity. }
    destruct Hrun as [Hcalls Hagent].
    split; [exact Hcalls |].
    split; [| split].
    + split; [intros _; exact Hy |].
      intros _. exists (execute_prompt task). left. reflexivity.
    + intros _. split; [reflexivity | exact Hagent].
    + intros Hn. contradiction.
  - apply String.eqb_neq in Hy.
    exists [].
    split; [rewrite Hturn; reflexivity |].
    split; [| split].
    + split; [intros [prompt []] | intros Hp; contradiction].
    + intros Hp. contradiction.
    + intros _. split; [reflexivity |].
      eexists. split; [exact Hturn |].
      repeat split.
      intros fuel. exact (while_true_continues fuel _ _ Hturn).
Qed.

(** ** The fuel of [structured_chat_loop] is enough *)

Lemma reads_only_ret {A} (a : A) : reads_only (ag := ag) (ret a).
Proof.
  intros s o s' H. inversion H. subst. apply Nat.le_refl.
Qed.

Lemma reads_only_raise {A} (e : exn) : reads_only (ag := ag) (@raise _ A e).
Proof.
  intros s o s' H. inversion H. subst. apply Nat.le_refl.
Qed.



Lemma reads_only_print (text : string) : reads_only (print ag text).
Proof.
  intros s o s' H. inversion H. subst. apply Nat.le_refl.
Qed.

Lemma reads_only_input (prompt : string) : reads_only (input ag prompt).
Proof.
  intros s o s' H. unfold input in H.
  destruct (stdin s) as [| [text |] rest] eqn:Hin;
    inversion H; subst; cbn; lia.
Qed.

Lemma reads_only_agent_run (prompt : string) : reads_only (agent_run ag prompt).
Proof.
  intros s o s' H. unfold agent_run in H.
  destruct (a_run ag prompt (agent s)). inversion H. subst. apply Nat.le_refl.
Qed.

Lemma reads_only_agent_run_structured (prompt : string) :
  reads_only (agent_run_structured ag prompt).
Proof.
  intros s o s' H. unfold agent_run_structured in H.
  destruct (a_run_structured ag prompt (agent s)).
  inversion H. subst. apply Nat.le_refl.
Qed.

Create HintDb reads.

#[local] Hint Resolve reads_only_ret reads_only_raise reads_only_print
  reads_only_input reads_only_agent_run reads_only_agent_run_structured
  : reads.







End ClientProofs.

(** ** The loop on the scripted agent *)

Section ClientRuns.

Import Client Scenarios.

(** Scenario D: the task is declined, the only agent call is the
    extraction, and the pass ends with [Continue]. *)
Example declined_task_is_dropped :
  fst (turn ascii_lower script_agent declined) = Ret Continue
  /\ calls (snd (turn ascii_lower script_agent declined))
     = [RunStructured "Analyze a task with the following description: send weekly report"]
  /\ stdin (snd (turn ascii_lower script_agent declined)) = [Line "exit"].
Proof. repeat split. Qed.

(** The whole session of scenario D: it ends by [exit] with the sessions
    closed. *)
Example declined_session :
  fst (structured_chat_loop ascii_lower script_agent declined) = Ret (Some tt)
  /\ sessions_closed (snd (structured_chat_loop ascii_lower script_agent declined))
     = true
  /\ calls (snd (structured_chat_loop ascii_lower script_agent declined))
     = [RunStructured "Analyze a task with the following description: send weekly report"].
Proof. repeat split. Qed.

(** A confirmed task whose execution fails: both calls are issued, the
    error is shown, and the session still ends by [quit]. *)
Example over_budget_session :
  fst (structured_chat_loop ascii_lower script_agent over_budget) = Ret (Some tt)
  /\ calls (snd (structured_chat_loop ascii_lower script_agent over_budget))
     = [RunStructured "Analyze a task with the following description: send weekly report";
        Run "Execute the following task: send weekly report"].
Proof. repeat split. Qed.

Lemma confirmation_gate_witness :
  (calls (snd (turn ascii_lower script_agent accepted))
   = [RunStructured "Analyze a task with the following description: send weekly report";
      Run "Execute the following task: send weekly report"]
   /\ agent (snd (turn ascii_lower script_agent accepted)) = [])
  /\ (calls (snd (turn ascii_lower script_agent declined))
      = [RunStructured "Analyze a task with the following description: send weekly report"]
      /\ exists s',
          turn ascii_lower script_agent declined = (Ret Continue, s')
          /\ agent s' = []
          /\ stdin s' = [Line "exit"]
          /\ sessions_closed s' = false
          /\ forall fuel,
              while_true ascii_lower script_agent (S fuel) declined
              = while_true ascii_lower script_agent fuel s').
Proof.
  split.
  - destruct (confirmation_gate ascii_lower script_agent accepted
                "Task" "send weekly report" "Y" [Line "exit"] weekly_report
                [Says "Report sent."] eq_refl eq_refl eq_refl)
      as (issued & Hcalls & _ & Hyes & _).
    destruct (Hyes eq_refl) as [-> Hagent].
    split; [exact Hcalls | exact Hagent].
  - destruct (confirmation_gate ascii_lower script_agent declined
                "task" "send weekly report" "n" [Line "exit"] weekly_report []
                eq_refl eq_refl eq_refl)
      as (issued & Hcalls & _ & _ & Hno).
    assert (Hn : ascii_lower "n" <> "y") by discriminate.
    destruct (Hno Hn) as [-> Hrest].
    split; [exact Hcalls | exact Hrest].
Defined.

Lemma agent_error_returns_to_idle_witness :
  isinstance_Exception step_budget = true
  /\ exists s',
       turn ascii_lower script_agent over_budget = (Ret Continue, s')
       /\ (exists out,
             stdout s' = out ++ [Print ("❌ Error: " ++ exn_str step_budget);
                                 Print "Please try again or type 'exit' to quit."])
       /\ sessions_closed s' = false
       /\ (forall fuel,
             while_true ascii_lower script_agent (S fuel) over_budget
             = while_true ascii_lower script_agent fuel s').
Proof.
  split; [reflexivity |].
  exact (agent_error_returns_to_idle ascii_lower script_agent over_budget step_budget
           (raises_in_execution ascii_lower script_agent over_budget step_budget
              "TASK" "send weekly report" "Y" [Line "quit"] weekly_report
              [Throws step_budget] []
              eq_refl eq_refl eq_refl eq_refl eq_refl)
           eq_refl).
Defined.

End ClientRuns.

(** * More of the server: what the handlers do on every path *)

Section ServerCoverage.

Import Server.

Variable eng : Engine.

(** ** list_tables *)

(** X1.  [list_tables] has no handler: it returns the inspector's table
    names as they come, after exactly the two inspector calls, and an
    exception of either call leaves it unchanged. *)
Theorem list_tables_follows_inspector (s : srv eng) :
  match e_inspect eng (db s) with
  | (Raise e, w1) =>
      list_tables eng s = (Raise e, mkSrv eng w1 (events s ++ [EvInspect]) (log s))
  | (Ret i, w1) =>
      match e_get_table_names eng i w1 with
      | (Ret names, w2) =>
          list_tables eng s
          = (Ret (mkTableList names),
             mkSrv eng w2 (events s ++ [EvInspect; EvGetTableNames]) (log s))
      | (Raise e, w2) =>
          list_tables eng s
          = (Raise e,
             mkSrv eng w2 (events s ++ [EvInspect; EvGetTableNames]) (log s))
      end
  end.
Proof.
  unfold list_tables, inspect, get_table_names, bind, call, ret.
  destruct (e_inspect eng (db s)) as [[i | e] w1]; cbn; [| reflexivity].
  destruct (e_get_table_names eng i w1) as [[names | e] w2]; cbn;
    rewrite <- app_assoc; reflexivity.
Qed.

(** ** run_sql: the calls it issues *)

Lemma run_sql_handler_events (q : string) (e : exn) (s : srv eng) :
  events (snd (run_sql_handler eng q e s)) = events s
  /\ db (snd (run_sql_handler eng q e s)) = db s.
Proof.
  unfold run_sql_handler.
  destruct (isinstance_SQLAlchemyError e); [split; reflexivity |].
  destruct (isinstance_Exception e); split; reflexivity.
Qed.

(** The calls of one [run_sql], read off the engine's answers. *)
Lemma run_sql_events (q : string) (s : srv eng) :
  events (snd (run_sql eng q s))
  = events s ++
    match e_connect eng (db s) with
    | (Raise _, _) => [EvConnect]
    | (Ret c, w1) =>
        match e_execute eng c q w1 with
        | (Raise _, _) => [EvConnect; EvExecute q; EvClose]
        | (Ret cur, _) =>
            if e_returns_rows eng cur
            then [EvConnect; EvExecute q; EvFetch; EvClose]
            else [EvConnect; EvExecute q; EvCommit; EvClose]
        end
    end.
Proof.
  unfold run_sql, try_except, run_sql_body, with_connect, bind, try_finally,
    connect, execute, fetch, commit, close, call, ret.
  destruct (e_connect eng (db s)) as [[c | e] w1]; cbn -[run_sql_handler].
  2: { now rewrite (proj1 (run_sql_handler_events q e _)). }
  destruct (e_execute eng c q w1) as [[cur | e] w2]; cbn -[run_sql_handler].
  - destruct (e_returns_rows eng cur); cbn -[run_sql_handler].
    + destruct (e_fetch eng cur w2) as [[rs | e] w3]; cbn -[run_sql_handler];
        destruct (e_close eng c w3) as [[[] | e'] w4]; cbn -[run_sql_handler];
        rewrite ?(proj1 (run_sql_handler_events q _ _)); cbn;
        rewrite <- !app_assoc; reflexivity.
    + destruct (e_commit eng c w2) as [[[] | e] w3]; cbn -[run_sql_handler];
        destruct (e_close eng c w3) as [[[] | e'] w4]; cbn -[run_sql_handler];
        rewrite ?(proj1 (run_sql_handler_events q _ _)); cbn;
        rewrite <- !app_assoc; reflexivity.
  - destruct (e_close eng c w2) as [[[] | e'] w3]; cbn -[run_sql_handler];
      rewrite ?(proj1 (run_sql_handler_events q _ _)); cbn;
      rewrite <- !app_assoc; reflexivity.
Qed.

(** X2.  [run_sql] gives back every connection it got: when
    [engine.connect()] returns, the calls that follow end with the one
    and only close, whatever the statement, the fetch or the commit did;
    when it raises, nothing follows. *)
Theorem run_sql_releases_connection (q : string) (s : srv eng) :
  match e_connect eng (db s) with
  | (Ret _, _) =>
      exists mid,
        events (snd (run_sql eng q s)) = events s ++ EvConnect :: mid ++ [EvClose]
        /\ ~ In EvClose mid /\ ~ In EvConnect mid
  | (Raise _, _) =>
      events (snd (run_sql eng q s)) = events s ++ [EvConnect]
  end.
Proof.
  rewrite run_sql_events.
  destruct (e_connect eng (db s)) as [[c | e] w1]; [| reflexivity].
  destruct (e_execute eng c q w1) as [[cur | e] w2].
  - destruct (e_returns_rows eng cur).
    + exists [EvExecute q; EvFetch]. split; [reflexivity |].
      split; intros [H | [H | []]]; discriminate.
    + exists [EvExecute q; EvCommit]. split; [reflexivity |].
      split; intros [H | [H | []]]; discriminate.
  - exists [EvExecute q]. split; [reflexivity |].
    split; intros [H | []]; discriminate.
Qed.

(** X3.  [run_sql] commits exactly when the connection was obtained, the
    statement executed and its result returns no rows; in particular
    never after a failed statement and never for a result with rows. *)
Theorem run_sql_commit_iff (q : string) (s : srv eng) :
  exists new,
    events (snd (run_sql eng q s)) = events s ++ new
    /\ (In EvCommit new <->
        exists c w1 cur w2,
          e_connect eng (db s) = (Ret c, w1)
          /\ e_execute eng c q w1 = (Ret cur, w2)
          /\ e_returns_rows eng cur = false).
Proof.
  eexists. split; [apply run_sql_events |].
  destruct (e_connect eng (db s)) as [[c | e] w1].
  - destruct (e_execute eng c q w1) as [[cur | e] w2] eqn:Hx.
    + destruct (e_returns_rows eng cur) eqn:Hr.
      * split.
        -- intros [H | [H | [H | [H | []]]]]; discriminate.
        -- intros (c' & w1' & cur' & w2' & Hc & Hx' & Hr').
           inversion Hc. subst c' w1'. rewrite Hx in Hx'.
           inversion Hx'. subst cur'. congruence.
      * split.
        -- intros _. exists c, w1, cur, w2. repeat split; assumption.
        -- intros _. right. right. left. reflexivity.
    + split.
      * intros [H | [H | [H | []]]]; discriminate.
      * intros (c' & w1' & cur' & w2' & Hc & Hx' & _).
        inversion Hc. subst c' w1'. rewrite Hx in Hx'. discriminate.
  - split.
    + intros [H | []]; discriminate.
    + intros (c' & w1' & cur' & w2' & Hc & _). discriminate.
Qed.

(** X4.  Every result [run_sql] returns, on success and on failure,
    carries in [sql] the string it was called with, and whatever still
    leaves the call is not an [Exception]; and one call of [run_sql]
    calls [conn.execute] at most once. *)
Theorem run_sql_echoes_its_argument (q : string) (s : srv eng) :
  match fst (run_sql eng q s) with
  | Ret r => sql r = q
  | Raise e => isinstance_Exception e = false
  end
  /\ exists new,
       events (snd (run_sql eng q s)) = events s ++ new
       /\ length (filter (fun ev => match ev with EvExecute _ => true | _ => false end)
                    new)
          <= 1.
Proof.
  split.
  - destruct (run_sql eng q s) as [[r | e] s'] eqn:Hrun; cbn.
    + unfold run_sql, try_except in Hrun.
      destruct (run_sql_body eng q s) as [[r0 | e0] s1] eqn:Hbody.
      * inversion Hrun. subst r0 s1.
        exact (proj1 (proj2 (run_sql_body_result eng q s s' r Hbody))).
      * apply run_sql_handler_result in Hrun. subst r. reflexivity.
    + exact (run_sql_no_exception_escapes eng q s s' e Hrun).
  - eexists. split; [apply run_sql_events |].
    destruct (e_connect eng (db s)) as [[c | e] w1]; [| cbn; lia].
    destruct (e_execute eng c q w1) as [[cur | e] w2]; [| cbn; lia].
    destruct (e_returns_rows eng cur); cbn; lia.
Qed.

(** ** run_sql: failures at the end of the transaction *)

(** X5.  A statement that executed but whose [conn.commit()] raises an
    [Exception] is reported as a failure: [success = false],
    [row_count = 0] (not the cursor's count), [error = str(e)]; the
    connection is still closed. *)
Theorem run_sql_commit_failure_reported (q : string) (s : srv eng)
    (c : conn eng) (cur : cursor eng) (e : exn) (w1 w2 w3 w4 : world eng) :
  e_connect eng (db s) = (Ret c, w1) ->
  e_execute eng c q w1 = (Ret cur, w2) ->
  e_returns_rows eng cur = false ->
  e_commit eng c w2 = (Raise e, w3) ->
  e_close eng c w3 = (Ret tt, w4) ->
  isinstance_Exception e = true ->
  exists entry,
    run_sql eng q s
    = (Ret (mkSQLQueryResult false q 0 None (Some (exn_str e))),
       mkSrv eng w4 (events s ++ [EvConnect; EvExecute q; EvCommit; EvClose])
         (log s ++ [entry])).
Proof.
  intros Hc Hx Hr Hm Hcl He.
  assert (Hbody : run_sql_body eng q s
                  = (Raise e,
                     mkSrv eng w4
                       (events s ++ [EvConnect; EvExecute q; EvCommit; EvClose])
                       (log s))).
  { unfold run_sql_body, with_connect, connect.
    rewrite (bind_ret_step _ _ (call_runs eng EvConnect _ s Hc)).
    unfold try_finally, execute.
    rewrite (bind_ret_step _ _ (call_runs eng (EvExecute q) _ (mkSrv eng w1 _ _) Hx)).
    rewrite Hr. unfold commit.
    rewrite (bind_raise_step _ _ (call_runs eng EvCommit _ (mkSrv eng w2 _ _) Hm)).
    unfold close. rewrite (call_runs eng EvClose _ (mkSrv eng w3 _ _) Hcl).
    cbn. rewrite <- !app_assoc. reflexivity. }
  destruct (run_sql_handler_catches eng q e
              (mkSrv eng w4 (events s ++ [EvConnect; EvExecute q; EvCommit; EvClose])
                 (log s)) He) as [entry Hh].
  exists entry. unfold run_sql, try_except. rewrite Hbody. exact Hh.
Qed.

(** X6.  An [Exception] raised by the close that leaves the [with] block
    replaces the result: the statement executed and the commit went
    through (the database is in the state after the commit), yet
    [run_sql] returns [success = false] with the close error. *)
Theorem run_sql_close_failure_after_commit (q : string) (s : srv eng)
    (c : conn eng) (cur : cursor eng) (e : exn) (w1 w2 w3 w4 : world eng) :
  e_connect eng (db s) = (Ret c, w1) ->
  e_execute eng c q w1 = (Ret cur, w2) ->
  e_returns_rows eng cur = false ->
  e_commit eng c w2 = (Ret tt, w3) ->
  e_close eng c w3 = (Raise e, w4) ->
  isinstance_Exception e = true ->
  exists entry,
    run_sql eng q s
    = (Ret (mkSQLQueryResult false q 0 None (Some (exn_str e))),
       mkSrv eng w4 (events s ++ [EvConnect; EvExecute q; EvCommit; EvClose])
         (log s ++ [entry])).
Proof.
  intros Hc Hx Hr Hm Hcl He.
  assert (Hbody : run_sql_body eng q s
                  = (Raise e,
                     mkSrv eng w4
                       (events s ++ [EvConnect; EvExecute q; EvCommit; EvClose])
                       (log s))).
  { unfold run_sql_body, with_connect, connect.
    rewrite (bind_ret_step _ _ (call_runs eng EvConnect _ s Hc)).
    unfold try_finally, execute.
    rewrite (bind_ret_step _ _ (call_runs eng (EvExecute q) _ (mkSrv eng w1 _ _) Hx)).
    rewrite Hr. unfold commit.
    rewrite (bind_ret_step _ _ (call_runs eng EvCommit _ (mkSrv eng w2 _ _) Hm)).
    unfold ret, close. rewrite (call_runs eng EvClose _ (mkSrv eng w3 _ _) Hcl).
    cbn. rewrite <- !app_assoc. reflexivity. }
  destruct (run_sql_handler_catches eng q e
              (mkSrv eng w4 (events s ++ [EvConnect; EvExecute q; EvCommit; EvClose])
                 (log s)) He) as [entry Hh].
  exists entry. unfold run_sql, try_except. rewrite Hbody. exact Hh.
Qed.

(** ** run_sql: the log *)

Lemma run_sql_body_keeps_log (q : string) (s : srv eng) :
  log (snd (run_sql_body eng q s)) = log s.
Proof.
  unfold run_sql_body, with_connect, bind, try_finally,
    connect, execute, fetch, commit, close, call, ret.
  destruct (e_connect eng (db s)) as [[c | e] w1]; cbn; [| reflexivity].
  destruct (e_execute eng c q w1) as [[cur | e] w2]; cbn.
  - destruct (e_returns_rows eng cur); cbn.
    + destruct (e_fetch eng cur w2) as [[rs | e] w3]; cbn;
        destruct (e_close eng c w3) as [[[] | e'] w4]; reflexivity.
    + destruct (e_commit eng c w2) as [[[] | e] w3]; cbn;
        destruct (e_close eng c w3) as [[[] | e'] w4]; reflexivity.
  - destruct (e_close eng c w2) as [[[] | e'] w3]; reflexivity.
Qed.

(** X7.  [run_sql] writes to the log only when its [try] block raised:
    one line with the message for an SQLAlchemy error, one traceback for
    any other [Exception], nothing for what it lets through, and
    nothing on success. *)
Theorem run_sql_logs_failures_only (q : string) (s : srv eng) :
  log (snd (run_sql eng q s))
  = log s ++
    match fst (run_sql_body eng q s) with
    | Ret _ => []
    | Raise e =>
        if isinstance_SQLAlchemyError e
        then [LogError ("SQL error: " ++ exn_str e)]
        else if isinstance_Exception e then [LogTraceback e] else []
    end.
Proof.
  pose proof (run_sql_body_keeps_log q s) as Hlog.
  unfold run_sql, try_except.
  destruct (run_sql_body eng q s) as [[r | e] s1]; cbn in *.
  - rewrite Hlog. now rewrite app_nil_r.
  - unfold run_sql_handler.
    destruct (isinstance_SQLAlchemyError e); cbn; [now rewrite Hlog |].
    destruct (isinstance_Exception e); cbn; rewrite Hlog;
      [reflexivity | now rewrite app_nil_r].
Qed.

(** ** sample_data_resource on every path *)

Lemma sample_data_handler_events (table_name : string) (e : exn) (s : srv eng) :
  events (snd (sample_data_handler eng table_name e s)) = events s.
Proof.
  unfold sample_data_handler. destruct (isinstance_Exception e); reflexivity.
Qed.

(** The calls of one [sample_data_resource], read off the engine's
    answers. *)
Lemma sample_data_events (table_name : string) (s : srv eng) :
  events (snd (sample_data_resource eng table_name s))
  = events s ++
    match e_inspect eng (db s) with
    | (Raise _, _) => [EvInspect]
    | (Ret i, w1) =>
        match e_get_columns eng i table_name w1 with
        | (Raise _, _) => [EvInspect; EvGetColumns table_name]
        | (Ret _, w2) =>
            match e_connect eng w2 with
            | (Raise _, _) => [EvInspect; EvGetColumns table_name; EvConnect]
            | (Ret c, w3) =>
                match e_execute eng c (sample_query table_name) w3 with
                | (Raise _, _) =>
                    [EvInspect; EvGetColumns table_name; EvConnect;
                     EvExecute (sample_query table_name); EvClose]
                | (Ret _, _) =>
                    [EvInspect; EvGetColumns table_name; EvConnect;
                     EvExecute (sample_query table_name); EvFetch; EvClose]
                end
            end
        end
    end.
Proof.
  unfold sample_data_resource, try_except, sample_data_body, with_connect, bind,
    try_finally, inspect, get_columns, connect, execute, fetch, close, call, ret.
  remember (sample_query table_name) as q eqn:Hq.
  destruct (e_inspect eng (db s)) as [[i | e] w1]; cbn -[sample_data_handler];
    [| reflexivity].
  destruct (e_get_columns eng i table_name w1) as [[infos | e] w2];
    cbn -[sample_data_handler].
  2: { rewrite sample_data_handler_events. cbn. now rewrite <- !app_assoc. }
  destruct (e_connect eng w2) as [[c | e] w3]; cbn -[sample_data_handler].
  2: { rewrite sample_data_handler_events. cbn. now rewrite <- !app_assoc. }
  destruct (e_execute eng c q w3) as [[cur | e] w4]; cbn -[sample_data_handler].
  - destruct (e_fetch eng cur w4) as [[rs | e] w5]; cbn -[sample_data_handler];
      destruct (e_close eng c w5) as [[[] | e'] w6]; cbn -[sample_data_handler];
      rewrite ?sample_data_handler_events; cbn;
      rewrite <- !app_assoc; reflexivity.
  - destruct (e_close eng c w4) as [[[] | e'] w5]; cbn -[sample_data_handler];
      rewrite ?sample_data_handler_events; cbn;
      rewrite <- !app_assoc; reflexivity.
Qed.

(** X8.  [sample_data_resource] only reads, and gives back what it
    took: on no path does it commit; once it has called [conn.execute]
    the last call it makes is the one and only close of the connection,
    whether the statement or the fetch failed or not; and when it never
    got that far there is no close. *)
Theorem sample_data_read_only (table_name : string) (s : srv eng) :
  exists new,
    events (snd (sample_data_resource eng table_name s)) = events s ++ new
    /\ ~ In EvCommit new
    /\ ((exists q, In (EvExecute q) new) ->
        exists mid, new = mid ++ [EvClose] /\ ~ In EvClose mid)
    /\ (~ (exists q, In (EvExecute q) new) -> ~ In EvClose new).
Proof.
  eexists. split; [apply sample_data_events |].
  destruct (e_inspect eng (db s)) as [[i | e] w1].
  - destruct (e_get_columns eng i table_name w1) as [[infos | e] w2].
    + destruct (e_connect eng w2) as [[c | e] w3].
      * destruct (e_execute eng c (sample_query table_name) w3) as [[cur | e] w4].
        -- split; [intros H; cbn in H; intuition discriminate |].
           split.
           ++ intros _.
              exists [EvInspect; EvGetColumns table_name; EvConnect;
                      EvExecute (sample_query table_name); EvFetch].
              split; [reflexivity | intros H; cbn in H; intuition discriminate].
           ++ intros Hn. exfalso. apply Hn.
              exists (sample_query table_name). cbn. tauto.
        -- split; [intros H; cbn in H; intuition discriminate |].
           split.
           ++ intros _.
              exists [EvInspect; EvGetColumns table_name; EvConnect;
                      EvExecute (sample_query table_name)].
              split; [reflexivity | intros H; cbn in H; intuition discriminate].
           ++ intros Hn. exfalso. apply Hn.
              exists (sample_query table_name). cbn. tauto.
      * split; [intros H; cbn in H; intuition discriminate |].
        split.
        -- intros [q H]. cbn in H. intuition discriminate.
        -- intros _ H. cbn in H. intuition discriminate.
    + split; [intros H; cbn in H; intuition discriminate |].
      split.
      * intros [q H]. cbn in H. intuition discriminate.
      * intros _ H. cbn in H. intuition discriminate.
  - split; [intros H; cbn in H; intuition discriminate |].
    split.
    + intros [q H]. cbn in H. intuition discriminate.
    + intros _ H. cbn in H. intuition discriminate.
Qed.

(** X9.  A name the inspector rejects never reaches the database as a
    statement: when [get_columns] raises an [Exception], the error view
    comes back after the two inspector calls, with no connection opened
    and nothing executed. *)
Theorem sample_data_rejected_name_sends_nothing (table_name : string)
    (s : srv eng) (i : inspector eng) (e : exn) (w1 w2 : world eng) :
  e_inspect eng (db s) = (Ret i, w1) ->
  e_get_columns eng i table_name w1 = (Raise e, w2) ->
  isinstance_Exception e = true ->
  sample_data_resource eng table_name s
  = (Ret (mkSampleDataView table_name [] [] (Some (exn_str e))),
     mkSrv eng w2 (events s ++ [EvInspect; EvGetColumns table_name])
       (log s ++ [LogError ("Error fetching sample data for table "
                              ++ table_name ++ ": " ++ exn_str e)])).
Proof.
  intros Hi Hg He. unfold sample_data_resource, inspect.
  rewrite (bind_ret_step _ _ (call_runs eng EvInspect _ s Hi)).
  unfold try_except, sample_data_body, get_columns.
  rewrite (bind_raise_step _ _
             (call_runs eng (EvGetColumns table_name) _ (mkSrv eng w1 _ _) Hg)).
  unfold sample_data_handler. rewrite He.
  cbn. rewrite <- !app_assoc. reflexivity.
Qed.

(** X10.  When every call returns, [sample_data_resource] hands back the
    inspector's column names in their order and all the rows the cursor
    yields, in their order: it neither counts nor cuts them, the limit
    is only in the text of the statement. *)
Theorem sample_data_returns_what_it_fetched (table_name : string) (s : srv eng)
    (i : inspector eng) (infos : list column_info) (c : conn eng)
    (cur : cursor eng) (rs : list row) (w1 w2 w3 w4 w5 w6 : world eng) :
  e_inspect eng (db s) = (Ret i, w1) ->
  e_get_columns eng i table_name w1 = (Ret infos, w2) ->
  e_connect eng w2 = (Ret c, w3) ->
  e_execute eng c (sample_query table_name) w3 = (Ret cur, w4) ->
  e_fetch eng cur w4 = (Ret rs, w5) ->
  e_close eng c w5 = (Ret tt, w6) ->
  sample_data_resource eng table_name s
  = (Ret (mkSampleDataView table_name (map ci_name infos) rs None),
     mkSrv eng w6
       (events s ++ [EvInspect; EvGetColumns table_name; EvConnect;
                     EvExecute (sample_query table_name); EvFetch; EvClose])
       (log s)).
Proof.
  intros Hi Hg Hc Hx Hf Hcl. unfold sample_data_resource, inspect.
  rewrite (bind_ret_step _ _ (call_runs eng EvInspect _ s Hi)).
  unfold try_except, sample_data_body, get_columns.
  rewrite (bind_ret_step _ _
             (call_runs eng (EvGetColumns table_name) _ (mkSrv eng w1 _ _) Hg)).
  cbv beta zeta. unfold with_connect, connect. unfold bind at 1.
  rewrite (bind_ret_step _ _ (call_runs eng EvConnect _ (mkSrv eng w2 _ _) Hc)).
  unfold try_finally, execute.
  rewrite (bind_ret_step _ _
             (call_runs eng (EvExecute (sample_query table_name)) _
                (mkSrv eng w3 _ _) Hx)).
  unfold fetch. rewrite (call_runs eng EvFetch _ (mkSrv eng w4 _ _) Hf).
  unfold close. rewrite (call_runs eng EvClose _ (mkSrv eng w5 _ _) Hcl).
  cbn. rewrite <- !app_assoc. reflexivity.
Qed.

(** X11.  Whatever the engine does, a view returned by
    [sample_data_resource] names the table it was asked for and either
    has no error or has an error and neither columns nor rows; and the
    only [Exception] that can leave the call is one raised by
    [inspect(engine)]. *)
Theorem sample_data_view_invariant (table_name : string) (s : srv eng) :
  match fst (sample_data_resource eng table_name s) with
  | Ret v =>
      sd_table v = table_name
      /\ (sd_error v = None
          \/ (sd_error v <> None /\ sd_columns v = [] /\ sd_sample_rows v = []))
  | Raise e =>
      fst (e_inspect eng (db s)) = Raise e \/ isinstance_Exception e = false
  end.
Proof.
  unfold sample_data_resource, bind, inspect, call.
  destruct (e_inspect eng (db s)) as [[i | e] w1]; cbn; [| left; reflexivity].
  unfold try_except.
  destruct (sample_data_body eng i table_name
              (mkSrv eng w1 (events s ++ [EvInspect]) (log s)))
    as [[v | e] s2] eqn:Hbody.
  - destruct (sample_data_body_result eng i table_name _ _ v Hbody)
      as (infos & c & cur & rs & w & w' & w'' & _ & _ & ->).
    cbn. split; [reflexivity | left; reflexivity].
  - unfold sample_data_handler.
    destruct (isinstance_Exception e) eqn:He; cbn.
    + split; [reflexivity |]. right. repeat split. discriminate.
    + right. exact He.
Qed.

End ServerCoverage.

Section ServerCoverageRuns.

Import Server Scenarios.

Lemma run_sql_commit_failure_reported_witness :
  exists entry,
    run_sql (faulty_engine (Some deferred_violation) None) update_book
      (mkSrv (faulty_engine (Some deferred_violation) None) library [] [])
    = (Ret (mkSQLQueryResult false update_book 0 None
              (Some "violates foreign key constraint (deferred)")),
       mkSrv (faulty_engine (Some deferred_violation) None) library
         ([] ++ [EvConnect; EvExecute update_book; EvCommit; EvClose])
         ([] ++ [entry])).
Proof.
  exact (run_sql_commit_failure_reported
           (faulty_engine (Some deferred_violation) None) update_book
           (mkSrv (faulty_engine (Some deferred_violation) None) library [] [])
           tt (Affected 1) deferred_violation library library library library
           eq_refl eq_refl eq_refl eq_refl eq_refl eq_refl).
Defined.

Lemma run_sql_close_failure_after_commit_witness :
  exists entry,
    run_sql (faulty_engine None (Some connection_lost)) update_book
      (mkSrv (faulty_engine None (Some connection_lost)) library [] [])
    = (Ret (mkSQLQueryResult false update_book 0 None
              (Some "server closed the connection unexpectedly")),
       mkSrv (faulty_engine None (Some connection_lost))
         (mkMemdb true [("books", books_columns)] 1)
         ([] ++ [EvConnect; EvExecute update_book; EvCommit; EvClose])
         ([] ++ [entry])).
Proof.
  exact (run_sql_close_failure_after_commit
           (faulty_engine None (Some connection_lost)) update_book
           (mkSrv (faulty_engine None (Some connection_lost)) library [] [])
           tt (Affected 1) connection_lost library library
           (mkMemdb true [("books", books_columns)] 1)
           (mkMemdb true [("books", books_columns)] 1)
           eq_refl eq_refl eq_refl eq_refl eq_refl eq_refl).
Defined.

Lemma sample_data_rejected_name_sends_nothing_witness :
  sample_data_resource postgres "ghost_table" postgres0
  = (Ret (mkSampleDataView "ghost_table" [] [] (Some "ghost_table")),
     mkSrv postgres library ([] ++ [EvInspect; EvGetColumns "ghost_table"])
       ([] ++ [LogError "Error fetching sample data for table ghost_table: ghost_table"])).
Proof.
  exact (sample_data_rejected_name_sends_nothing postgres "ghost_table" postgres0
           tt (Exn NoSuchTableError "ghost_table") library library
           eq_refl eq_refl eq_refl).
Defined.

Lemma sample_data_returns_what_it_fetched_witness :
  sample_data_resource postgres "books" postgres0
  = (Ret (mkSampleDataView "books" ["id"; "title"] three_books None),
     mkSrv postgres library
       ([] ++ [EvInspect; EvGetColumns "books"; EvConnect;
               EvExecute "SELECT * FROM books LIMIT 5"; EvFetch; EvClose])
       []).
Proof.
  exact (sample_data_returns_what_it_fetched postgres "books" postgres0
           tt books_columns tt (Rows three_books) three_books
           library library library library library library
           eq_refl eq_refl eq_refl eq_refl eq_refl eq_refl).
Defined.

End ServerCoverageRuns.

(** * More of the chat loop: the ways in and out of a pass *)

Section ClientCoverage.

Import Client.

Variable lower : string -> string.
Variable ag : Agent.

(** ** Commands and conversation *)

(** X12.  [exit] and [quit], in any spelling [str.lower] maps to them,
    end the loop at once: the pass says goodbye, calls no agent, leaves
    the rest of the terminal unread, and [while True] is left by
    [break]. *)
Theorem exit_ends_the_loop (s : client ag) (user_input : string)
    (rest : list console_in) :
  stdin s = Line user_input :: rest ->
  (lower user_input =? "exit") || (lower user_input =? "quit") = true ->
  let s' := mkClient ag rest
              (stdout s ++ [Prompt (nl ++ "You: "); Print "👋 Goodbye!"])
              (agent s) (calls s) (sessions_closed s) in
  turn lower ag s = (Ret Break, s')
  /\ forall fuel, while_true lower ag (S fuel) s = (Ret (Some tt), s').
Proof.
  intros Hin Hcmd s'.
  assert (Hturn : turn lower ag s = (Ret Break, s')).
  { unfold turn.
    rewrite (bind_ret_step _ _ (input_reads ag _ _ _ s Hin)).
    rewrite Hcmd. cbn. rewrite <- app_assoc. reflexivity. }
  split; [exact Hturn |].
  intros fuel. cbn [while_true].
  rewrite (bind_ret_step _ _ Hturn). reflexivity.
Qed.

(** X13.  Regular conversation: the commands are recognised on the
    lowercased line, but what goes to the agent is the line as typed,
    in one call; the answer is printed and the loop goes on. *)
Theorem conversation_sends_the_line_as_typed (s : client ag)
    (user_input response : string) (rest : list console_in)
    (a' : agent_state ag) :
  stdin s = Line user_input :: rest ->
  (lower user_input =? "exit") || (lower user_input =? "quit") = false ->
  (lower user_input =? "task") = false ->
  a_run ag user_input (agent s) = (Ret response, a') ->
  turn lower ag s
  = (Ret Continue,
     mkClient ag rest
       (stdout s ++ [Prompt (nl ++ "You: "); Print (assistant_line response)])
       a' (calls s ++ [Run user_input]) (sessions_closed s)).
Proof.
  intros Hin Hcmd Htask Hrun.
  rewrite (turn_dispatch lower ag s _ _ Hin Hcmd).
  unfold try_except, turn_body. rewrite Htask. unfold chat_branch.
  rewrite (bind_ret_step _ _
             (bind_ret_step _ _ (agent_run_runs ag _ (after_prompt s rest) _ _ Hrun))).
  cbn. rewrite <- app_assoc. reflexivity.
Qed.

(** X14.  A confirmed task: after the extraction the pass sends one more
    call, built from the task's description alone (its type and priority
    are only shown), prints the answer and goes on.  A task without a
    description is still executed, with [None] as its text. *)
Theorem confirmed_task_is_executed (s : client ag)
    (user_input task_description proceed response : string)
    (rest : list console_in) (task : TaskRequest) (a1 a2 : agent_state ag) :
  stdin s = Line user_input :: Line task_description :: Line proceed :: rest ->
  lower user_input = "task" ->
  a_run_structured ag (analyze_prompt task_description) (agent s) = (Ret task, a1) ->
  lower proceed = "y" ->
  a_run ag (execute_prompt task) a1 = (Ret response, a2) ->
  exists s',
    turn lower ag s = (Ret Continue, s')
    /\ calls s'
       = calls s ++ [RunStructured (analyze_prompt task_description);
                     Run ("Execute the following task: "
                            ++ match description task with
                               | Some d => d
                               | None => "None"
                               end)]
    /\ (exists out, stdout s' = out ++ [Print (assistant_line response)])
    /\ agent s' = a2
    /\ stdin s' = rest.
Proof.
  intros Hin Hu Hext Hp Hrun.
  eexists. split.
  - rewrite (turn_dispatch lower ag s _ _ Hin (task_is_no_exit lower user_input Hu)).
    unfold try_except, turn_body, bind at 1.
    rewrite Hu. cbn [String.eqb Ascii.eqb Bool.eqb].
    rewrite (task_branch_asks lower ag
               (after_prompt s (Line task_description :: Line proceed :: rest))
               task_description proceed rest task a1 eq_refl Hext).
    rewrite Hp. cbn [String.eqb Ascii.eqb Bool.eqb].
    rewrite (bind_ret_step _ _
               (agent_run_runs ag _ (after_confirmation _ _ _ _ _) _ _ Hrun)).
    reflexivity.
  - cbn. split; [| split; [| split]].
    + rewrite <- app_assoc. reflexivity.
    + eexists. reflexivity.
    + reflexivity.
    + reflexivity.
Qed.

(** ** Interrupts and end of input *)

Lemma turn_handler_interrupt (e : exn) (s : client ag) :
  isinstance_KeyboardInterrupt e = true ->
  turn_handler ag e s
  = (Ret Break,
     mkClient ag (stdin s) (stdout s ++ [Print (nl ++ "👋 Goodbye!")])
       (agent s) (calls s) (sessions_closed s)).
Proof.
  intros He. unfold turn_handler. rewrite He. reflexivity.
Qed.

(** X15.  A [KeyboardInterrupt] out of any of the three agent calls ends
    the session the way [exit] does: goodbye is printed and the loop is
    left by [break], not by the exception. *)
Theorem interrupt_in_agent_call_ends_the_loop (s : client ag) (e : exn) :
  agent_call_raises lower ag s e ->
  isinstance_KeyboardInterrupt e = true ->
  exists s',
    turn lower ag s = (Ret Break, s')
    /\ (exists out, stdout s' = out ++ [Print (nl ++ "👋 Goodbye!")])
    /\ forall fuel, while_true lower ag (S fuel) s = (Ret (Some tt), s').
Proof.
  intros Hraises He.
  destruct (agent_call_raises_in_body lower ag s e Hraises)
    as (u & rest & s1 & Hin & Hcmd & Hbody & _).
  assert (Hturn : turn lower ag s
                  = (Ret Break,
                     mkClient ag (stdin s1)
                       (stdout s1 ++ [Print (nl ++ "👋 Goodbye!")])
                       (agent s1) (calls s1) (sessions_closed s1))).
  { rewrite (turn_dispatch lower ag s _ _ Hin Hcmd).
    unfold try_except. rewrite Hbody.
    apply turn_handler_interrupt. exact He. }
  eexists. split; [exact Hturn |].
  split; [eexists; reflexivity |].
  intros fuel. cbn [while_true].
  rewrite (bind_ret_step _ _ Hturn). reflexivity.
Qed.

(** What [structured_chat_loop] does when its first [input] raises: the
    banner, the prompt, then the [finally]. *)
Lemma first_prompt_raises (s s1 : client ag) (e : exn) :
  input ag (nl ++ "You: ")
    (mkClient ag (stdin s)
       (stdout s ++ [Print "🤖 MCP Agent Chat (Structured)";
                     Print "You can chat naturally or request structured task analysis";
                     Print "Type 'task' to create a structured task request"])
       (agent s) (calls s) (sessions_closed s))
  = (Raise e, s1) ->
  structured_chat_loop lower ag s
  = (Raise e, mkClient ag (stdin s1) (stdout s1) (agent s1) (calls s1) true).
Proof.
  intros Hread. unfold structured_chat_loop, chat.
  repeat (rewrite (bind_ret_step _ _ (print_runs ag _ _));
          cbn [stdin stdout agent calls sessions_closed]).
  rewrite <- !app_assoc. cbn [app].
  unfold try_finally. cbn [while_true]. unfold turn.
  rewrite (bind_raise_step _ _ (bind_raise_step _ _ Hread)).
  reflexivity.
Qed.

(** X16.  The prompt of the loop is read outside the inner [try]: at the
    end of input [EOFError] leaves [structured_chat_loop], although the
    loop has an [except Exception]; no agent call is made, and the
    [finally] has closed the sessions. *)
Theorem end_of_input_leaves_the_loop (s : client ag) :
  stdin s = [] ->
  structured_chat_loop lower ag s
  = (Raise (Exn EOFError "EOF when reading a line"),
     mkClient ag []
       (stdout s ++ [Print "🤖 MCP Agent Chat (Structured)";
                     Print "You can chat naturally or request structured task analysis";
                     Print "Type 'task' to create a structured task request";
                     Prompt (nl ++ "You: ")])
       (agent s) (calls s) true).
Proof.
  intros Hin.
  erewrite first_prompt_raises.
  2: { unfold input. cbn [stdin]. rewrite Hin. reflexivity. }
  cbn. rewrite <- app_assoc. reflexivity.
Qed.


(** X18.  End of input while the task is being described is inside the
    inner [try]: it is shown as the error of the pass, no agent call is
    made, and the pass ends with [Continue]. *)
Theorem end_of_input_in_task_is_reported (s : client ag) (user_input : string) :
  stdin s = [Line user_input] ->
  lower user_input = "task" ->
  turn lower ag s
  = (Ret Continue,
     mkClient ag []
       (stdout s ++ [Prompt (nl ++ "You: ");
                     Print (nl ++ "📋 Creating structured task...");
                     Prompt "Describe your task: ";
                     Print "❌ Error: EOF when reading a line";
                     Print "Please try again or type 'exit' to quit."])
       (agent s) (calls s) (sessions_closed s)).
Proof.
  intros Hin Hu.
  rewrite (turn_dispatch lower ag s _ _ Hin (task_is_no_exit lower user_input Hu)).
  unfold try_except, turn_body. rewrite Hu. cbn [String.eqb Ascii.eqb Bool.eqb].
  unfold task_branch, bind, print, modify, input, after_prompt.
  cbn [stdin stdout agent calls sessions_closed].
  unfold turn_handler. cbn.
  rewrite <- !app_assoc. reflexivity.
Qed.

(** X19.  When the [input()] of the confirmation question raises
    [KeyboardInterrupt], the inner [try] takes it: the task is not
    executed, the extraction stays the only agent call, goodbye is
    printed and the loop is left by [break]. *)
Theorem interrupt_at_confirmation_drops_the_task (s : client ag)
    (user_input task_description : string) (rest : list console_in)
    (task : TaskRequest) (a1 : agent_state ag) :
  stdin s = Line user_input :: Line task_description :: Interrupt :: rest ->
  lower user_input = "task" ->
  a_run_structured ag (analyze_prompt task_description) (agent s) = (Ret task, a1) ->
  exists s',
    turn lower ag s = (Ret Break, s')
    /\ calls s' = calls s ++ [RunStructured (analyze_prompt task_description)]
    /\ (exists out, stdout s' = out ++ [Print (nl ++ "👋 Goodbye!")])
    /\ stdin s' = rest
    /\ forall fuel, while_true lower ag (S fuel) s = (Ret (Some tt), s').
Proof.
  intros Hin Hu Hext.
  assert (Hturn : exists s',
             turn lower ag s = (Ret Break, s')
             /\ calls s' = calls s ++ [RunStructured (analyze_prompt task_description)]
             /\ (exists out, stdout s' = out ++ [Print (nl ++ "👋 Goodbye!")])
             /\ stdin s' = rest).
  { rewrite (turn_dispatch lower ag s _ _ Hin (task_is_no_exit lower user_input Hu)).
    unfold try_except, turn_body. rewrite Hu. cbn [String.eqb Ascii.eqb Bool.eqb].
    destruct s as [keys out a cs closed].
    cbn [stdin agent] in Hin, Hext. subst keys.
    unfold task_branch, after_prompt.
    cbn [stdin stdout agent calls sessions_closed].
    unfold bind at 1 2.
    rewrite (print_runs ag _ _). cbn [stdin stdout agent calls sessions_closed].
    rewrite (bind_ret_step _ _
               (input_reads ag _ _ _ (mkClient ag _ _ _ _ _) eq_refl)).
    cbn [stdin stdout agent calls sessions_closed].
    rewrite (bind_ret_step _ _
               (agent_run_structured_runs ag _ (mkClient ag _ _ _ _ _) _ _ Hext)).
    cbn [stdin stdout agent calls sessions_closed].
    repeat (rewrite (bind_ret_step _ _ (print_runs ag _ _));
            cbn [stdin stdout agent calls sessions_closed]).
    unfold bind, input. cbn [stdin stdout agent calls sessions_closed].
    unfold turn_handler. cbn.
    eexists. split; [reflexivity |]. cbn.
    split; [reflexivity |]. split; [| reflexivity].
    eexists. reflexivity. }
  destruct Hturn as (s' & Hturn & Hcalls & Hout & Hrest).
  exists s'. repeat split; try assumption.
  intros fuel. cbn [while_true].
  rewrite (bind_ret_step _ _ Hturn). reflexivity.
Qed.

(** ** Agent calls against lines read *)

Local Open Scope Z_scope.

Lemma paced_weaken {A} (r x r' x' : Z) (m : M (client ag) A) :
  paced r x m -> r <= r' -> x <= x' -> paced r' x' m.
Proof.
  intros Hm Hr Hx s o s' Hrun. specialize (Hm s o s' Hrun).
  destruct o; lia.
Qed.

Lemma paced_ret {A} (a : A) : paced (ag := ag) 0 0 (ret a).
Proof.
  intros s o s' H. inversion H. subst. lia.
Qed.

Lemma paced_bind {A B} (r1 x1 r2 x2 : Z)
    (m : M (client ag) A) (k : A -> M (client ag) B) :
  paced r1 x1 m -> (forall a, paced r2 x2 (k a)) ->
  paced (r1 + r2) (Z.max x1 (r1 + x2)) (bind m k).
Proof.
  intros Hm Hk s o s' H. unfold bind in H.
  destruct (m s) as [[a | e] s1] eqn:Hms; specialize (Hm _ _ _ Hms); cbn in Hm.
  - specialize (Hk a _ _ _ H). destruct o; lia.
  - inversion H. subst. lia.
Qed.

Lemma paced_try_except {A} (r1 x1 r2 x2 : Z)
    (body : M (client ag) A) (handler : exn -> M (client ag) A) :
  paced r1 x1 body -> (forall e, paced r2 x2 (handler e)) ->
  paced (Z.max r1 (x1 + r2)) (x1 + x2) (try_except body handler).
Proof.
  intros Hb Hh s o s' H. unfold try_except in H.
  destruct (body s) as [[a | e] s1] eqn:Hbs; specialize (Hb _ _ _ Hbs); cbn in Hb.
  - inversion H. subst. lia.
  - specialize (Hh e _ _ _ H). destruct o; lia.
Qed.

Lemma paced_print (text : string) : paced 0 0 (print ag text).
Proof.
  intros s o s' H. inversion H. subst. unfold pending. cbn. lia.
Qed.

(** A line read is one terminal event less. *)
Lemma paced_input (prompt : string) : paced (-1) 0 (input ag prompt).
Proof.
  intros s o s' H. unfold input in H. unfold pending.
  destruct (stdin s) as [| [text |] rest] eqn:Hin;
    inversion H; subst; cbn [stdin calls length]; lia.
Qed.

(** An agent call is one call more, whether it returns or raises. *)
Lemma paced_agent_run (prompt : string) : paced 1 1 (agent_run ag prompt).
Proof.
  intros s o s' H. unfold agent_run in H. unfold pending.
  destruct (a_run ag prompt (agent s)). inversion H. subst.
  cbn [stdin calls]. rewrite length_app. cbn.
  match goal with |- match ?oc with _ => _ end => destruct oc end; lia.
Qed.

Lemma paced_agent_run_structured (prompt : string) :
  paced 1 1 (agent_run_structured ag prompt).
Proof.
  intros s o s' H. unfold agent_run_structured in H. unfold pending.
  destruct (a_run_structured ag prompt (agent s)). inversion H. subst.
  cbn [stdin calls]. rewrite length_app. cbn.
  match goal with |- match ?oc with _ => _ end => destruct oc end; lia.
Qed.

Lemma paced_task_branch : paced 0 0 (task_branch lower ag).
Proof.
  unfold task_branch.
  eapply paced_weaken.
  - eapply paced_bind; [apply paced_print | intros _].
    eapply paced_bind; [apply paced_input | intros task_description].
    eapply paced_bind; [apply paced_agent_run_structured | intros task].
    do 4 (eapply paced_bind; [apply paced_print | intros _]).
    eapply (paced_bind _ _ 1 1); [apply paced_input | intros proceed].
    destruct (lower proceed =? "y")%string.
    + eapply paced_weaken;
        [eapply paced_bind; [apply paced_agent_run | intros; apply paced_print]
        | lia | lia].
    + eapply paced_weaken; [apply paced_ret | lia | lia].
  - lia.
  - lia.
Qed.

Lemma paced_turn_body (user_input : string) :
  paced 1 1 (turn_body lower ag user_input).
Proof.
  unfold turn_body.
  eapply paced_weaken.
  - eapply (paced_bind 1 1); [| intros _; apply paced_ret].
    destruct (lower user_input =? "task")%string.
    + eapply paced_weaken; [apply paced_task_branch | lia | lia].
    + unfold chat_branch.
      eapply paced_weaken;
        [eapply paced_bind; [apply paced_agent_run | intros; apply paced_print]
        | lia | lia].
  - lia.
  - lia.
Qed.

Lemma paced_turn_handler (e : exn) : paced 0 0 (turn_handler ag e).
Proof.
  unfold turn_handler.
  destruct (isinstance_KeyboardInterrupt e).
  - eapply paced_weaken;
      [eapply paced_bind; [apply paced_print | intros; apply paced_ret] | lia | lia].
  - destruct (isinstance_Exception e).
    + eapply paced_weaken;
        [eapply paced_bind;
           [apply paced_print
           | intros; eapply paced_bind; [apply paced_print | intros; apply paced_ret]]
        | lia | lia].
    + intros s o s' H. inversion H. subst. lia.
Qed.

(** One pass never issues more agent calls than it read lines. *)
Lemma paced_turn : paced 0 0 (turn lower ag).
Proof.
  unfold turn.
  eapply paced_weaken.
  - eapply (paced_bind _ _ 1 1); [apply paced_input | intros user_input].
    destruct ((lower user_input =? "exit") || (lower user_input =? "quit"))%string.
    + eapply paced_weaken;
        [eapply paced_bind; [apply paced_print | intros; apply paced_ret] | lia | lia].
    + eapply paced_weaken;
        [apply (paced_try_except _ _ _ _ _ _
                  (paced_turn_body user_input) paced_turn_handler)
        | lia | lia].
  - lia.
  - lia.
Qed.

Lemma paced_while_true (fuel : nat) : paced 0 0 (while_true lower ag fuel).
Proof.
  induction fuel as [| fuel IH]; cbn [while_true].
  - apply paced_ret.
  - eapply paced_weaken.
    + eapply paced_bind; [apply paced_turn | intros [|]].
      * exact IH.
      * apply paced_ret.
    + lia.
    + lia.
Qed.

(** X20.  The agent is only called for lines the user entered: over one
    pass and over the whole of [structured_chat_loop], however it ends,
    the agent calls issued are at most as many as the terminal events
    read. *)
Theorem agent_calls_follow_input (s : client ag) :
  (length (calls (snd (turn lower ag s))) + length (stdin (snd (turn lower ag s)))
   <= length (calls s) + length (stdin s))%nat
  /\ (length (calls (snd (structured_chat_loop lower ag s)))
      + length (stdin (snd (structured_chat_loop lower ag s)))
      <= length (calls s) + length (stdin s))%nat.
Proof.
  split.
  - pose proof (paced_turn s) as H.
    destruct (turn lower ag s) as [o s'].
    specialize (H o s' eq_refl). unfold pending in H. cbn.
    destruct o; lia.
  - unfold structured_chat_loop, chat.
    repeat rewrite (bind_ret_step _ _ (print_runs ag _ _)).
    unfold try_finally, close_all_sessions, modify.
    match goal with
    | |- context [while_true lower ag ?n ?st] =>
        pose proof (paced_while_true n st) as H;
        destruct (while_true lower ag n st) as [o s1]
    end.
    specialize (H o s1 eq_refl). unfold pending in H. cbn in *.
    destruct o; lia.
Qed.

Local Close Scope Z_scope.

(** ** What the loop leaves alone *)

Lemma keeps_ret {A} (a : A) : keeps (ag := ag) (ret a).
Proof.
  intros s o s' H. inversion H. subst.
  split; [reflexivity |].
  split; exists []; now rewrite app_nil_r.
Qed.

Lemma keeps_raise {A} (e : exn) : keeps (ag := ag) (@raise _ A e).
Proof.
  intros s o s' H. inversion H. subst.
  split; [reflexivity |].
  split; exists []; now rewrite app_nil_r.
Qed.

Lemma keeps_bind {A B} (m : M (client ag) A) (k : A -> M (client ag) B) :
  keeps m -> (forall a, keeps (k a)) -> keeps (bind m k).
Proof.
  intros Hm Hk s o s' H. unfold bind in H.
  destruct (m s) as [[a | e] s1] eqn:Hms;
    destruct (Hm _ _ _ Hms) as (Hc1 & [out1 Ho1] & [new1 Hn1]).
  - destruct (Hk a _ _ _ H) as (Hc2 & [out2 Ho2] & [new2 Hn2]).
    split; [congruence |].
    split.
    + exists (out1 ++ out2). rewrite Ho2, Ho1. now rewrite app_assoc.
    + exists (new1 ++ new2). rewrite Hn2, Hn1. now rewrite app_assoc.
  - inversion H. subst.
    split; [assumption |]. split; eauto.
Qed.

Lemma keeps_try_except {A} (body : M (client ag) A)
    (handler : exn -> M (client ag) A) :
  keeps body -> (forall e, keeps (handler e)) -> keeps (try_except body handler).
Proof.
  intros Hb Hh s o s' H. unfold try_except in H.
  destruct (body s) as [[a | e] s1] eqn:Hbs;
    destruct (Hb _ _ _ Hbs) as (Hc1 & [out1 Ho1] & [new1 Hn1]).
  - inversion H. subst.
    split; [assumption |]. split; eauto.
  - destruct (Hh e _ _ _ H) as (Hc2 & [out2 Ho2] & [new2 Hn2]).
    split; [congruence |].
    split.
    + exists (out1 ++ out2). rewrite Ho2, Ho1. now rewrite app_assoc.
    + exists (new1 ++ new2). rewrite Hn2, Hn1. now rewrite app_assoc.
Qed.

Lemma keeps_print (text : string) : keeps (print ag text).
Proof.
  intros s o s' H. inversion H. subst. cbn.
  split; [reflexivity |].
  split; [eexists; reflexivity | exists []; now rewrite app_nil_r].
Qed.

Lemma keeps_input (prompt : string) : keeps (input ag prompt).
Proof.
  intros s o s' H. unfold input in H.
  destruct (stdin s) as [| [text |] rest]; inversion H; subst; cbn;
    (split; [reflexivity |];
     split; [eexists; reflexivity | exists []; now rewrite app_nil_r]).
Qed.

Lemma keeps_agent_run (prompt : string) : keeps (agent_run ag prompt).
Proof.
  intros s o s' H. unfold agent_run in H.
  destruct (a_run ag prompt (agent s)). inversion H. subst. cbn.
  split; [reflexivity |].
  split; [exists []; now rewrite app_nil_r | eexists; reflexivity].
Qed.

Lemma keeps_agent_run_structured (prompt : string) :
  keeps (agent_run_structured ag prompt).
Proof.
  intros s o s' H. unfold agent_run_structured in H.
  destruct (a_run_structured ag prompt (agent s)). inversion H. subst. cbn.
  split; [reflexivity |].
  split; [exists []; now rewrite app_nil_r | eexists; reflexivity].
Qed.

Create HintDb keeps.

#[local] Hint Resolve keeps_ret keeps_raise keeps_print keeps_input
  keeps_agent_run keeps_agent_run_structured : keeps.

Ltac keeps_steps :=
  repeat first
    [ apply keeps_bind; [| intros ?]
    | apply keeps_try_except; [| intros ?]
    | match goal with |- keeps (if ?b then _ else _) => destruct b end
    | match goal with |- keeps (match ?f with Continue => _ | Break => _ end) =>
        destruct f end
    | solve [auto with keeps] ].

Lemma keeps_turn : keeps (turn lower ag).
Proof.
  unfold turn, turn_body, turn_handler, task_branch, chat_branch. keeps_steps.
Qed.

Lemma keeps_while_true (fuel : nat) : keeps (while_true lower ag fuel).
Proof.
  induction fuel as [| fuel IH]; cbn [while_true].
  - apply keeps_ret.
  - apply keeps_bind; [apply keeps_turn | intros [|]].
    + exact IH.
    + apply keeps_ret.
Qed.

(** X21.  However long the loop runs and however a pass ends, it does not
    close the sessions and it only adds to what is on the screen and to
    the calls made: closing is left to the [finally]. *)
Theorem loop_leaves_sessions_open (fuel : nat) (s : client ag) :
  sessions_closed (snd (while_true lower ag fuel s)) = sessions_closed s
  /\ (exists out, stdout (snd (while_true lower ag fuel s)) = stdout s ++ out)
  /\ (exists new, calls (snd (while_true lower ag fuel s)) = calls s ++ new).
Proof.
  pose proof (keeps_while_true fuel s) as H.
  destruct (while_true lower ag fuel s) as [o s'].
  exact (H o s' eq_refl).
Qed.

End ClientCoverage.

Section ClientCoverageRuns.

Import Client Scenarios.

Lemma exit_ends_the_loop_witness :
  turn ascii_lower script_agent (client0 [Line "QUIT"; Line "not read"] [])
  = (Ret Break,
     mkClient script_agent [Line "not read"]
       [Prompt (nl ++ "You: "); Print "👋 Goodbye!"] [] [] false)
  /\ forall fuel,
       while_true ascii_lower script_agent (S fuel)
         (client0 [Line "QUIT"; Line "not read"] [])
       = (Ret (Some tt),
          mkClient script_agent [Line "not read"]
            [Prompt (nl ++ "You: "); Print "👋 Goodbye!"] [] [] false).
Proof.
  exact (exit_ends_the_loop ascii_lower script_agent
           (client0 [Line "QUIT"; Line "not read"] []) "QUIT" [Line "not read"]
           eq_refl eq_refl).
Defined.

Lemma conversation_sends_the_line_as_typed_witness :
  turn ascii_lower script_agent (client0 [Line "How Many Books?"] [Says "Three."])
  = (Ret Continue,
     mkClient script_agent []
       [Prompt (nl ++ "You: "); Print (assistant_line "Three.")]
       [] [Run "How Many Books?"] false).
Proof.
  exact (conversation_sends_the_line_as_typed ascii_lower script_agent
           (client0 [Line "How Many Books?"] [Says "Three."])
           "How Many Books?" "Three." [] [] eq_refl eq_refl eq_refl eq_refl).
Defined.

Lemma confirmed_task_is_executed_witness :
  exists s',
    turn ascii_lower script_agent
      (client0 [Line "task"; Line "anything"; Line "y"]
         [Extracts (mkTaskRequest (Some "reporting") None (Some "high"));
          Says "Done."])
    = (Ret Continue, s')
    /\ calls s'
       = [] ++ [RunStructured (analyze_prompt "anything");
                Run "Execute the following task: None"]
    /\ (exists out, stdout s' = out ++ [Print (assistant_line "Done.")])
    /\ agent s' = []
    /\ stdin s' = [].
Proof.
  exact (confirmed_task_is_executed ascii_lower script_agent
           (client0 [Line "task"; Line "anything"; Line "y"]
              [Extracts (mkTaskRequest (Some "reporting") None (Some "high"));
               Says "Done."])
           "task" "anything" "y" "Done." []
           (mkTaskRequest (Some "reporting") None (Some "high")) [Says "Done."] []
           eq_refl eq_refl eq_refl eq_refl eq_refl).
Defined.

Lemma interrupt_in_agent_call_ends_the_loop_witness :
  exists s',
    turn ascii_lower script_agent
      (client0 [Line "hello"; Line "not read"] [Throws (Exn KeyboardInterrupt "")])
    = (Ret Break, s')
    /\ (exists out, stdout s' = out ++ [Print (nl ++ "👋 Goodbye!")])
    /\ forall fuel,
         while_true ascii_lower script_agent (S fuel)
           (client0 [Line "hello"; Line "not read"] [Throws (Exn KeyboardInterrupt "")])
         = (Ret (Some tt), s').
Proof.
  exact (interrupt_in_agent_call_ends_the_loop ascii_lower script_agent
           (client0 [Line "hello"; Line "not read"] [Throws (Exn KeyboardInterrupt "")])
           (Exn KeyboardInterrupt "")
           (raises_in_conversation ascii_lower script_agent
              (client0 [Line "hello"; Line "not read"] [Throws (Exn KeyboardInterrupt "")])
              (Exn KeyboardInterrupt "")
              "hello" [Line "not read"] [] eq_refl eq_refl eq_refl eq_refl)
           eq_refl).
Defined.

Lemma end_of_input_leaves_the_loop_witness :
  structured_chat_loop ascii_lower script_agent (client0 [] [Says "unused"])
  = (Raise (Exn EOFError "EOF when reading a line"),
     mkClient script_agent []
       ([] ++ [Print "🤖 MCP Agent Chat (Structured)";
               Print "You can chat naturally or request structured task analysis";
               Print "Type 'task' to create a structured task request";
               Prompt (nl ++ "You: ")])
       [Says "unused"] [] true).
Proof.
  exact (end_of_input_leaves_the_loop ascii_lower script_agent
           (client0 [] [Says "unused"]) eq_refl).
Defined.


Lemma end_of_input_in_task_is_reported_witness :
  turn ascii_lower script_agent (client0 [Line "Task"] [Extracts weekly_report])
  = (Ret Continue,
     mkClient script_agent []
       ([] ++ [Prompt (nl ++ "You: ");
               Print (nl ++ "📋 Creating structured task...");
               Prompt "Describe your task: ";
               Print "❌ Error: EOF when reading a line";
               Print "Please try again or type 'exit' to quit."])
       [Extracts weekly_report] [] false).
Proof.
  exact (end_of_input_in_task_is_reported ascii_lower script_agent
           (client0 [Line "Task"] [Extracts weekly_report]) "Task"
           eq_refl eq_refl).
Defined.

Lemma interrupt_at_confirmation_drops_the_task_witness :
  exists s',
    turn ascii_lower script_agent
      (client0 [Line "task"; Line "send weekly report"; Interrupt; Line "y"]
         [Extracts weekly_report; Says "unused"])
    = (Ret Break, s')
    /\ calls s' = [] ++ [RunStructured (analyze_prompt "send weekly report")]
    /\ (exists out, stdout s' = out ++ [Print (nl ++ "👋 Goodbye!")])
    /\ stdin s' = [Line "y"]
    /\ forall fuel,
         while_true ascii_lower script_agent (S fuel)
           (client0 [Line "task"; Line "send weekly report"; Interrupt; Line "y"]
              [Extracts weekly_report; Says "unused"])
         = (Ret (Some tt), s').
Proof.
  exact (interrupt_at_confirmation_drops_the_task ascii_lower script_agent
           (client0 [Line "task"; Line "send weekly report"; Interrupt; Line "y"]
              [Extracts weekly_report; Says "unused"])
           "task" "send weekly report" [Line "y"] weekly_report [Says "unused"]
           eq_refl eq_refl eq_refl).
Defined.

End ClientCoverageRuns.
